(** * SMS Gamer UPS monitor: codec, command registry and MQTT bridge

    Shallow embedding of [sms_nobreak_addon/sms_gamer_ups_monitor.py] (the
    reconnection-aware variant) and of the parts it shares, line for line,
    with [add-on/SMS_monitor.py]:

    - Python [int] is [Z]; a [bytes] object is a [list byte];
    - a [dict] is an association list in insertion order;
    - a Python [float] obtained as [raw / 10.0] is kept as the exact
      rational [raw / 10] in [Q];
    - exceptions are values of [Exn]; a call either returns or raises;
    - a method is a function of the environment, the history of events so
      far and the session; the serial line, the MQTT client and the logger
      are observed through the chronological list of events it emits. *)

From Stdlib Require Import ZArith NArith QArith Qround List Bool String Ascii Lia.
From Stdlib Require Import Init.Byte.
Import ListNotations.

Local Open Scope Z_scope.

(** ** Python values used by the program *)

Definition bytes := list byte.

Inductive Exn : Type :=
| ValueError (msg : string)
| StructError
| IndexError
| AttributeError
| TypeError
| JSONDecodeError
| UnicodeDecodeError
| SerialException.

Inductive Result (A : Type) : Type :=
| Ok (a : A)
| Raise (e : Exn).
Arguments Ok {A} a.
Arguments Raise {A} e.

Definition rbind {A B} (r : Result A) (k : A -> Result B) : Result B :=
  match r with
  | Ok a => k a
  | Raise e => Raise e
  end.

Declare Scope result_scope.
Delimit Scope result_scope with result.
Notation "x <- r ;; k" := (rbind r (fun x => k))
  (at level 61, r at next level, right associativity) : result_scope.

Definition byte_val (b : byte) : Z := Z.of_N (Byte.to_N b).

(** [len(l)] *)
Definition len {A} (l : list A) : Z := Z.of_nat (List.length l).

(** Index normalisation of a slice bound: negative bounds count from the end,
    and every bound is clamped to [0 .. len]. *)
Definition slice_bound (i n : Z) : Z :=
  if i <? 0 then Z.max 0 (i + n) else Z.min i n.

(** [l[lo:hi]] *)
Definition py_slice {A} (l : list A) (lo hi : Z) : list A :=
  let a := slice_bound lo (len l) in
  let b := slice_bound hi (len l) in
  firstn (Z.to_nat (b - a)) (skipn (Z.to_nat a) l).

(** [l[i]]: raises [IndexError] out of range; a negative index counts from
    the end. *)
Definition py_index {A} (l : list A) (i : Z) : Result A :=
  let j := if i <? 0 then i + len l else i in
  if (j <? 0) || (len l <=? j) then Raise IndexError
  else match nth_error l (Z.to_nat j) with
       | Some x => Ok x
       | None => Raise IndexError
       end.

(** ** [struct] *)

(** One ['B'] field of [struct.pack]: an integer outside [0..255] raises
    [struct.error]. *)
Definition pack_B (v : Z) : Result byte :=
  if (0 <=? v) && (v <=? 255)
  then match Byte.of_N (Z.to_N v) with
       | Some b => Ok b
       | None => Raise StructError
       end
  else Raise StructError.

Fixpoint struct_pack_B (vs : list Z) : Result bytes :=
  match vs with
  | [] => Ok []
  | v :: vs' =>
      (b <- pack_B v ;;
       bs <- struct_pack_B vs' ;;
       Ok (b :: bs))%result
  end.

(** Big-endian unsigned value of a byte string. *)
Definition be_value (bs : bytes) : Z :=
  fold_left (fun acc b => acc * 256 + byte_val b) bs 0.

(** [struct.unpack(fmt, bs)[0]] for a single big-endian unsigned field of
    [size] bytes ([">I"] is 4, [">H"] is 2): a buffer of any other length
    raises [struct.error]. *)
Definition struct_unpack_be (size : nat) (bs : bytes) : Result Z :=
  if Nat.eqb (List.length bs) size then Ok (be_value bs) else Raise StructError.

(** ** String formatting *)

Definition hex_digit (n : N) : ascii :=
  match n with
  | 0%N => "0" | 1%N => "1" | 2%N => "2" | 3%N => "3"
  | 4%N => "4" | 5%N => "5" | 6%N => "6" | 7%N => "7"
  | 8%N => "8" | 9%N => "9" | 10%N => "a" | 11%N => "b"
  | 12%N => "c" | 13%N => "d" | 14%N => "e" | _ => "f"
  end%char.

(** [bs.hex()] *)
Fixpoint hex (bs : bytes) : string :=
  match bs with
  | [] => EmptyString
  | b :: bs' =>
      let n := Byte.to_N b in
      String (hex_digit (n / 16)) (String (hex_digit (n mod 16)) (hex bs'))
  end.

(** [f"{v:08b}"]: binary digits, zero-padded on the left to width 8. *)
Definition format_08b (v : Z) : string :=
  let width := Nat.max 8 (Z.to_nat (Z.log2 v + 1)) in
  fold_left
    (fun s i => String (if Z.testbit v (Z.of_nat i) then "1" else "0")%char s)
    (seq 0 width) EmptyString.

(** [sep.join(parts)] *)
Fixpoint join (sep : string) (parts : list string) : string :=
  match parts with
  | [] => EmptyString
  | [p] => p
  | p :: rest => (p ++ sep ++ join sep rest)%string
  end.

(** ** Fixed-point telemetry values *)

(** Nearest integer, ties to even. *)
Definition round_half_even (x : Q) : Z :=
  let f := Qfloor x in
  let r := (x - inject_Z f)%Q in
  match (r ?= 1 # 2)%Q with
  | Lt => f
  | Gt => f + 1
  | Eq => if Z.even f then f else f + 1
  end.

(** [round(x, 1)], in lowest terms. *)
Definition round1 (x : Q) : Q :=
  Qred (Qmake (round_half_even (x * 10)) 10).

(** [raw / 10.0] *)
Definition div10 (raw : Z) : Q := (inject_Z raw / 10)%Q.

(** ** Codec *)

(** [SMSGamerProtocol.calculate_checksum] *)
Definition calculate_checksum (cmd_byte p1 p2 p3 p4 : Z) : Z :=
  Z.land (-1 * (cmd_byte + p1 + p2 + p3 + p4)) 0xFF.

(** [SMSGamerProtocol.build_full_command] *)
Definition build_full_command (cmd_byte p1 p2 p3 p4 : Z) : Result bytes :=
  let checksum := calculate_checksum cmd_byte p1 p2 p3 p4 in
  (packed <- struct_pack_B [cmd_byte; p1; p2; p3; p4; checksum] ;;
   Ok (packed ++ [x0d]))%result.

(** The [flags_bits] dictionary of [_interpret_q_response]. *)
Definition flags_bits : list (Z * string) :=
  [ (7, "BateriaEmUso");
    (6, "BateriaBaixa");
    (5, "ByPass");
    (4, "Boost");
    (3, "UpsOk");
    (2, "TesteAtivo");
    (1, "ShutdownAtivo");
    (0, "BeepLigado") ]%string.

(** [[name for bit, name in flags_bits.items() if extra & (1 << bit)]] *)
Definition flags_on (extra : Z) : list string :=
  map snd
    (filter (fun '(bit, _) => negb (Z.land extra (Z.shiftl 1 bit) =? 0))
            flags_bits).

(** [', '.join(flags_on) if flags_on else 'nenhuma flag ativa'] *)
Definition flags_str (on : list string) : string :=
  match on with
  | [] => "nenhuma flag ativa"
  | _ => join ", " on
  end%string.

(** The [data] dictionary returned by [_interpret_q_response]. *)
Record QData : Type := {
  vin : Q;
  vout : Q;
  load_percent : Q;
  frequency : Q;
  battery_percent : Q;
  temperature : Q;
  extra_flags_raw : Z;
  extra_flags_binary : string;
  active_flags : list string;
  active_flags_str : string;
  raw_response_hex : string;
  timestamp : string
}.

(** What one call of [_interpret_q_response] does: the length guard logs a
    warning and returns [None]; an exception inside the [try] block logs an
    error and returns [None]; otherwise the dictionary is returned. *)
Inductive QOutcome : Type :=
| ShortResponse (logged_len : Z)
| MalformedResponse (e : Exn)
| Decoded (data : QData).

Definition returned (o : QOutcome) : option QData :=
  match o with
  | Decoded d => Some d
  | _ => None
  end.

(** The body of the [try] block. [now] is what [time.strftime] returns. *)
Definition interpret_q_body (now : string) (response : bytes) : Result QData :=
  (last <- py_index response (-1) ;;
   let response := if byte_val last =? 0x0D
                   then py_slice response 0 (-1) else response in
   vin_raw <- struct_unpack_be 4 (py_slice response 1 5) ;;
   let vin := div10 vin_raw in
   vout_raw <- struct_unpack_be 2 (py_slice response 5 7) ;;
   let vout := div10 vout_raw in
   power_raw <- struct_unpack_be 2 (py_slice response 7 9) ;;
   let power := div10 power_raw in
   freq_raw <- struct_unpack_be 2 (py_slice response 9 11) ;;
   let freq := div10 freq_raw in
   batt_raw <- struct_unpack_be 2 (py_slice response 11 13) ;;
   let batt := div10 batt_raw in
   temp_raw <- struct_unpack_be 2 (py_slice response 13 15) ;;
   let temp := div10 temp_raw in
   extra_b <- py_index response 15 ;;
   let extra := byte_val extra_b in
   let extra_flags_bin := format_08b extra in
   let on := flags_on extra in
   Ok {| vin := round1 vin;
         vout := round1 vout;
         load_percent := round1 power;
         frequency := round1 freq;
         battery_percent := round1 batt;
         temperature := round1 temp;
         extra_flags_raw := extra;
         extra_flags_binary := extra_flags_bin;
         active_flags := on;
         active_flags_str := flags_str on;
         raw_response_hex := hex response;
         timestamp := now |})%result.

(** [SMSGamerProtocol._interpret_q_response] *)
Definition _interpret_q_response (now : string) (response : bytes) : QOutcome :=
  if (len response =? 0) || (len response <? 17)
  then ShortResponse (len response)
  else match interpret_q_body now response with
       | Ok data => Decoded data
       | Raise e => MalformedResponse e
       end.

(** ** JSON values and dictionaries *)

#[local] Unset Elimination Schemes.
Inductive json : Type :=
| JNull
| JBool (b : bool)
| JInt (n : Z)
| JFloat (q : Q)
| JStr (s : string)
| JArr (l : list json)
| JObj (d : list (string * json)).
#[local] Set Elimination Schemes.

Section Dict.
Context {V : Type}.

(** [d.get(k)] *)
Fixpoint dict_get (d : list (string * V)) (k : string) : option V :=
  match d with
  | [] => None
  | (k', v) :: d' => if String.eqb k k' then Some v else dict_get d' k
  end.

(** [k in d] for a string key *)
Definition dict_mem (d : list (string * V)) (k : string) : bool :=
  match dict_get d k with
  | Some _ => true
  | None => false
  end.

(** [d[k] = v]: an existing key keeps its position, a new one goes last. *)
Fixpoint dict_set (d : list (string * V)) (k : string) (v : V)
  : list (string * V) :=
  match d with
  | [] => [(k, v)]
  | (k', v') :: d' =>
      if String.eqb k k' then (k', v) :: d' else (k', v') :: dict_set d' k v
  end.

(** [d.update(items)] *)
Definition dict_update (d items : list (string * V)) : list (string * V) :=
  fold_left (fun acc '(k, v) => dict_set acc k v) items d.
End Dict.

(** Truth value of a decoded JSON value in an [if]. *)
Definition truthy (v : json) : bool :=
  match v with
  | JNull => false
  | JBool b => b
  | JInt n => negb (n =? 0)
  | JFloat q => negb (Qeq_bool q 0)
  | JStr s => negb (String.eqb s EmptyString)
  | JArr l => match l with [] => false | _ => true end
  | JObj d => match d with [] => false | _ => true end
  end.

(** [payload.get("command")] on whatever [json.loads] returned: only a
    [dict] has a [get] method; a missing key gives [None]. *)
Definition json_get (payload : json) (k : string) : Result json :=
  match payload with
  | JObj d => match dict_get d k with
              | Some v => Ok v
              | None => Ok JNull
              end
  | _ => Raise AttributeError
  end.

(** ** Module constants *)

Definition HA_DISCOVERY_PREFIX : string := "homeassistant".
Definition MQTT_CLIENT_ID : string := "sms_gamer_monitor".
Definition MQTT_TOPIC_BASE : string := "sms_gamer/ups".
Definition DEVICE_NAME : string := "SMS Gamer UPS".
Definition DEVICE_MANUFACTURER : string := "SMS".
Definition DEVICE_MODEL : string := "Gamer".
Definition DEVICE_SW_VERSION : string := "v7".

(** [SMS_GAMER_COMMANDS_PARAMS]: key to [(cmd_byte, p1, p2, p3, p4)]. *)
Definition SMS_GAMER_COMMANDS_PARAMS : list (string * (Z * Z * Z * Z * Z)) :=
  [ ("Q", (0x51, 0xFF, 0xFF, 0xFF, 0xFF));
    ("I", (0x49, 0xFF, 0xFF, 0xFF, 0xFF));
    ("F", (0x46, 0xFF, 0xFF, 0xFF, 0xFF));
    ("M", (0x4D, 0xFF, 0xFF, 0xFF, 0xFF));
    ("D", (0x44, 0xFF, 0xFF, 0xFF, 0xFF));
    ("C", (0x43, 0xFF, 0xFF, 0xFF, 0xFF));
    ("G", (0x47, 0x01, 0xFF, 0xFF, 0xFF));
    ("L", (0x4C, 0xFF, 0xFF, 0xFF, 0xFF));
    ("T", (0x54, 0x00, 0x10, 0x00, 0x00));
    ("T1", (0x54, 0x00, 0x64, 0x00, 0x00));
    ("T2", (0x54, 0x00, 0xC8, 0x00, 0x00));
    ("T3", (0x54, 0x01, 0x2C, 0x00, 0x00));
    ("T9", (0x54, 0x03, 0x84, 0x00, 0x00));
    ("R", (0x52, 0x00, 0xC8, 0x27, 0x0F)) ]%string.

(** [self.simple_commands_map] *)
Definition simple_commands_map : list (string * Z) :=
  [ ("Q", 0x51); ("I", 0x49); ("F", 0x46) ]%string.

(** ** The world: session state and observable events *)

Definition ClientId := nat.

Inductive Level : Type := DEBUG | INFO | WARNING | ERROR.

(** One constructor per logging call of the modelled methods, carrying the
    values interpolated into the message. *)
Inductive LogMsg : Type :=
| SimpleSending (command_char packet_hex : string)
| SimpleResponse (n : Z) (response_hex : string)
| SimpleNoResponse
| SimpleError (command_char : string) (e : Exn)
| PredefinedNotFound (command_key : string)
| PredefinedNotConnected
| PredefinedSending (command_key packet_hex : string)
| PredefinedResponse (n : Z) (response_hex : string)
| PredefinedNoResponse (command_key : string)
| PredefinedError (command_key : string) (e : Exn)
| MqttConnected
| MqttSubscribed (topic : string)
| MqttRetainedCleared (topic : string)
| MqttConnectFailed (rc : Z)
| MqttConnecting
| MqttConnectError (e : Exn)
| MqttMessageReceived (topic payload : string)
| MqttCommandSent (command_key : string)
| MqttCommandNotRecognized (command_key : json)
| MqttNoCommandKey
| MqttJSONDecodeError (payload : string)
| MqttProcessingError (e : Exn)
| DiscoveryNoClient
| DiscoveryPublished (name topic : string)
| DiscoveryPublishedBinary (name topic : string).

(** The [payload] argument of [client.publish]. *)
Inductive Payload : Type :=
| PNone
| PDumps (j : json).

Inductive Event : Type :=
| Log (level : Level) (msg : LogMsg)
| SerialWrite (packet : bytes)
| Sleep (seconds : Q)
| SerialRead (size : Z)
| MqttReconnectDelaySet (client : ClientId) (min_delay max_delay : Z)
| MqttConnect (client : ClientId) (keepalive : Z)
| MqttLoopStart (client : ClientId)
| MqttSubscribe (client : ClientId) (topic : string)
| MqttPublish (client : ClientId) (topic : string) (payload : Payload)
              (qos : Z) (retain : bool).

(** The [serial.Serial] object held in [self.serial]. *)
Record Serial : Type := { is_open : bool }.

(** The attributes of [SMSGamerProtocol] that change at run time. *)
Record Session : Type := {
  connected : bool;
  serial : option Serial;
  mqtt_client : option ClientId
}.

(** What the program does not decide: the UPS behind the serial line and the
    broker's reachability, as functions of everything that happened before,
    and the two library functions applied to inbound MQTT payloads. *)
Record Env : Type := {
  serial_write_raises : list Event -> bytes -> option Exn;
  serial_read_result : list Event -> Z -> Result bytes;
  mqtt_connect_raises : list Event -> option Exn;
  bytes_decode : bytes -> Result string;
  json_loads : string -> Result json
}.

(** A method call: given the environment, the history so far and the
    session, it returns or raises, leaves a session, and emits events. *)
Definition M (A : Type) : Type :=
  Env -> list Event -> Session -> Result A * Session * list Event.

Definition ret {A} (a : A) : M A := fun _ _ s => (Ok a, s, []).

Definition raise {A} (e : Exn) : M A := fun _ _ s => (Raise e, s, []).

Definition bind {A B} (m : M A) (k : A -> M B) : M B :=
  fun env h s =>
    match m env h s with
    | (Ok a, s1, ev1) =>
        match k a env (h ++ ev1) s1 with
        | (r, s2, ev2) => (r, s2, ev1 ++ ev2)
        end
    | (Raise e, s1, ev1) => (Raise e, s1, ev1)
    end.

(** [try: body except Exception as e: handler(e)] restricted to the
    exceptions [catches] accepts. *)
Definition try_except {A} (body : M A) (catches : Exn -> bool)
           (handler : Exn -> M A) : M A :=
  fun env h s =>
    match body env h s with
    | (Ok a, s1, ev1) => (Ok a, s1, ev1)
    | (Raise e, s1, ev1) =>
        if catches e
        then match handler e env (h ++ ev1) s1 with
             | (r, s2, ev2) => (r, s2, ev1 ++ ev2)
             end
        else (Raise e, s1, ev1)
    end.

Definition lift {A} (r : Result A) : M A := fun _ _ s => (r, s, []).

Definition emit (e : Event) : M unit := fun _ _ s => (Ok tt, s, [e]).

Definition get_session : M Session := fun _ _ s => (Ok s, s, []).

Definition set_mqtt_client (c : option ClientId) : M unit :=
  fun _ _ s =>
    (Ok tt,
     {| connected := connected s; serial := serial s; mqtt_client := c |},
     []).

Definition ask : M Env := fun env _ s => (Ok env, s, []).

Declare Scope monad_scope.
Delimit Scope monad_scope with monad.
Notation "x <- m ;; k" := (bind m (fun x => k))
  (at level 61, m at next level, right associativity) : monad_scope.
Notation "m ;;; k" := (bind m (fun _ => k))
  (at level 61, right associativity) : monad_scope.

Definition log (level : Level) (msg : LogMsg) : M unit := emit (Log level msg).

(** [time.sleep(seconds)] *)
Definition sleep (seconds : Q) : M unit := emit (Sleep seconds).

(** [self.serial.write(packet)] *)
Definition serial_write (packet : bytes) : M unit :=
  fun env h s =>
    match serial_write_raises env h packet with
    | None => (Ok tt, s, [SerialWrite packet])
    | Some e => (Raise e, s, [SerialWrite packet])
    end.

(** [self.serial.read(size)] *)
Definition serial_read (size : Z) : M bytes :=
  fun env h s => (serial_read_result env h size, s, [SerialRead size]).

(** [client.subscribe(topic)] *)
Definition mqtt_subscribe (client : ClientId) (topic : string) : M unit :=
  emit (MqttSubscribe client topic).

(** [client.publish(topic, payload, qos=qos, retain=retain)] *)
Definition mqtt_publish (client : ClientId) (topic : string)
           (payload : Payload) (qos : Z) (retain : bool) : M unit :=
  emit (MqttPublish client topic payload qos retain).

(** [for x in xs: body(x)] *)
Fixpoint for_each {A} (xs : list A) (body : A -> M unit) : M unit :=
  match xs with
  | [] => ret tt
  | x :: xs' => (body x ;;; for_each xs' body)%monad
  end.

Definition any_exception (_ : Exn) : bool := true.

Definition is_JSONDecodeError (e : Exn) : bool :=
  match e with
  | JSONDecodeError => true
  | _ => false
  end.

(** Truth value of a [bytes] object. *)
Definition nonempty (bs : bytes) : bool :=
  match bs with
  | [] => false
  | _ => true
  end.

(** [not self.connected or not self.serial] *)
Definition not_connected (s : Session) : bool :=
  negb (connected s) || match serial s with Some _ => false | None => true end.

(** ** Sending commands *)

Definition a_tilde : string := String "195" (String "163" EmptyString).

(** [SMSGamerProtocol.send_simple_command] *)
Definition send_simple_command (command_char : string) : M (option bytes) :=
  (match dict_get simple_commands_map command_char with
   | None =>
       raise (ValueError ("Comando simples '" ++ command_char ++ "' n"
                          ++ a_tilde ++ "o suportado"))
   | Some cmd_byte =>
       cmd_packet <- lift (build_full_command cmd_byte 0xFF 0xFF 0xFF 0xFF) ;;
       s <- get_session ;;
       if not_connected s then ret None
       else
         try_except
           (log DEBUG (SimpleSending command_char (hex cmd_packet)) ;;;
            serial_write cmd_packet ;;;
            sleep (2 # 10) ;;;
            response <- serial_read 64 ;;
            if nonempty response
            then log DEBUG (SimpleResponse (len response) (hex response)) ;;;
                 ret (Some response)
            else log WARNING SimpleNoResponse ;;;
                 ret None)
           any_exception
           (fun e => log ERROR (SimpleError command_char e) ;;; ret None)
   end)%monad.

(** [SMSGamerProtocol.send_predefined_command] *)
Definition send_predefined_command (command_key : string) : M (option bytes) :=
  (match dict_get SMS_GAMER_COMMANDS_PARAMS command_key with
   | None =>
       log ERROR (PredefinedNotFound command_key) ;;;
       ret None
   | Some (cmd_byte, p1, p2, p3, p4) =>
       cmd_packet <- lift (build_full_command cmd_byte p1 p2 p3 p4) ;;
       s <- get_session ;;
       if not_connected s
       then log ERROR PredefinedNotConnected ;;;
            ret None
       else
         try_except
           (log INFO (PredefinedSending command_key (hex cmd_packet)) ;;;
            serial_write cmd_packet ;;;
            sleep 1 ;;;
            response <- serial_read 64 ;;
            if nonempty response
            then log INFO (PredefinedResponse (len response) (hex response)) ;;;
                 ret (Some response)
            else log WARNING (PredefinedNoResponse command_key) ;;;
                 ret None)
           any_exception
           (fun e => log ERROR (PredefinedError command_key e) ;;; ret None)
   end)%monad.

(** ** MQTT session callbacks *)

(** The [msg] argument of [on_message]. *)
Record MQTTMessage : Type := {
  topic : string;
  payload : bytes
}.

(** [command_key in SMS_GAMER_COMMANDS_PARAMS] for a decoded JSON value: a
    string is looked up; a list or a dict is unhashable and raises
    [TypeError]; any other value is hashable and equal to no key. The key is
    returned when it is present. *)
Definition registry_lookup (command_key : json) : Result (option string) :=
  match command_key with
  | JStr k => if dict_mem SMS_GAMER_COMMANDS_PARAMS k then Ok (Some k)
              else Ok None
  | JArr _ | JObj _ => Raise TypeError
  | _ => Ok None
  end.

(** [SMSGamerProtocol._on_mqtt_message] *)
Definition _on_mqtt_message (msg : MQTTMessage) : M unit :=
  (env <- ask ;;
   text <- lift (bytes_decode env (payload msg)) ;;
   log INFO (MqttMessageReceived (topic msg) text) ;;;
   try_except
     (try_except
        (text <- lift (bytes_decode env (payload msg)) ;;
         payload <- lift (json_loads env text) ;;
         command_key <- lift (json_get payload "command") ;;
         if truthy command_key
         then
           found <- lift (registry_lookup command_key) ;;
           match found with
           | Some k =>
               send_predefined_command k ;;;
               log INFO (MqttCommandSent k)
           | None =>
               log WARNING (MqttCommandNotRecognized command_key)
           end
         else log WARNING MqttNoCommandKey)
        is_JSONDecodeError
        (fun _ =>
           text <- lift (bytes_decode env (payload msg)) ;;
           log ERROR (MqttJSONDecodeError text)))
     any_exception
     (fun e => log ERROR (MqttProcessingError e)))%monad.

(** [SMSGamerProtocol.connect_mqtt]. [new_client] is the object
    [mqtt.Client(...)] returns; setting the credentials and the three
    callbacks on it performs no I/O and leaves no event. *)
Definition connect_mqtt (new_client : ClientId) : M bool :=
  (try_except
     (set_mqtt_client (Some new_client) ;;;
      emit (MqttReconnectDelaySet new_client 1 120) ;;;
      (fun env h s =>
         match mqtt_connect_raises env h with
         | None => (Ok tt, s, [MqttConnect new_client 60])
         | Some e => (Raise e, s, [MqttConnect new_client 60])
         end) ;;;
      emit (MqttLoopStart new_client) ;;;
      log INFO MqttConnecting ;;;
      ret true)
     any_exception
     (fun e => log ERROR (MqttConnectError e) ;;; ret false))%monad.

(** *** Discovery *)

Definition dq : string := String "034" EmptyString.
Definition degree : string := String "194" (String "176" EmptyString).

Definition lower_ascii (c : ascii) : ascii :=
  let n := nat_of_ascii c in
  if (Nat.leb 65 n && Nat.leb n 90)%bool then ascii_of_nat (n + 32) else c.

(** [s.lower()] *)
Fixpoint lower (s : string) : string :=
  match s with
  | EmptyString => EmptyString
  | String c s' => String (lower_ascii c) (lower s')
  end.

Definition device_info : json :=
  JObj [ ("identifiers", JArr [JStr MQTT_CLIENT_ID]);
         ("name", JStr DEVICE_NAME);
         ("manufacturer", JStr DEVICE_MANUFACTURER);
         ("model", JStr DEVICE_MODEL);
         ("sw_version", JStr DEVICE_SW_VERSION) ]%string.

Definition sensors_to_discover : list (string * list (string * string)) :=
  [ ("vin", [("name", "Input Voltage"); ("unit_of_measurement", "V");
             ("device_class", "voltage"); ("state_class", "measurement")]);
    ("vout", [("name", "Output Voltage"); ("unit_of_measurement", "V");
              ("device_class", "voltage"); ("state_class", "measurement")]);
    ("load_percent", [("name", "Load Percent"); ("unit_of_measurement", "%");
                      ("icon", "mdi:gauge"); ("state_class", "measurement")]);
    ("frequency", [("name", "Frequency"); ("unit_of_measurement", "Hz");
                   ("device_class", "frequency");
                   ("state_class", "measurement")]);
    ("battery_percent", [("name", "Battery Percent");
                         ("unit_of_measurement", "%");
                         ("device_class", "battery");
                         ("state_class", "measurement")]);
    ("temperature", [("name", "Temperature");
                     ("unit_of_measurement", degree ++ "C");
                     ("device_class", "temperature");
                     ("state_class", "measurement")]);
    ("active_flags_str", [("name", "Active Flags");
                          ("icon", "mdi:information-outline")]) ]%string.

Definition binary_flags : list (string * list (string * string)) :=
  [ ("BateriaEmUso", [("name", "Battery In Use"); ("device_class", "running");
                      ("entity_category", "diagnostic")]);
    ("BateriaBaixa", [("name", "Low Battery"); ("device_class", "battery");
                      ("entity_category", "diagnostic")]);
    ("ByPass", [("name", "Bypass"); ("icon", "mdi:power-plug-off");
                ("entity_category", "diagnostic")]);
    ("Boost", [("name", "Boost"); ("icon", "mdi:flash");
               ("entity_category", "diagnostic")]);
    ("UpsOk", [("name", "UPS OK"); ("device_class", "problem");
               ("entity_category", "diagnostic");
               ("value_template",
                "{% if 'UpsOk' in value_json.active_flags %}OFF{% else %}ON{% endif %}")]);
    ("TesteAtivo", [("name", "Test Active"); ("icon", "mdi:test-tube");
                    ("entity_category", "diagnostic")]);
    ("ShutdownAtivo", [("name", "Shutdown Active"); ("icon", "mdi:power-off");
                       ("entity_category", "diagnostic")]);
    ("BeepLigado", [("name", "Beep On"); ("icon", "mdi:volume-high");
                    ("entity_category", "diagnostic")]) ]%string.

Definition buttons_config : list (string * list (string * string)) :=
  [ ("battery_test", [("name", "Battery Test"); ("command", "T");
                      ("icon", "mdi:battery-charging")]);
    ("battery_discharge", [("name", "Battery Discharge"); ("command", "D");
                           ("icon", "mdi:battery-alert")]);
    ("cancel_action", [("name", "Cancel Action"); ("command", "C");
                       ("icon", "mdi:cancel")]);
    ("shutdown_restore", [("name", "Shutdown & Restore"); ("command", "R");
                          ("icon", "mdi:power-cycle")]) ]%string.

(** [config[k]]: a missing key raises [KeyError], which no table entry
    triggers; the tables above always carry the keys that are read. *)
Definition config_item (config : list (string * string)) (k : string) : string :=
  match dict_get config k with
  | Some v => v
  | None => EmptyString
  end.

(** [{k: v for k, v in config.items() if k not in excluded}] *)
Definition config_without (config : list (string * string))
           (excluded : list string) : list (string * json) :=
  map (fun '(k, v) => (k, JStr v))
      (filter (fun '(k, _) => negb (existsb (String.eqb k) excluded)) config).

(** [{"command": "<key>"}] as the source writes it in a string literal. *)
Definition command_json_text (key : string) : string :=
  ("{" ++ dq ++ "command" ++ dq ++ ": " ++ dq ++ key ++ dq ++ "}")%string.

(** [SMSGamerProtocol.publish_discovery_messages] *)
Definition publish_discovery_messages : M unit :=
  (s <- get_session ;;
   match mqtt_client s with
   | None => log ERROR DiscoveryNoClient
   | Some client =>
       for_each sensors_to_discover (fun '(key, config) =>
         let unique_id := (MQTT_CLIENT_ID ++ "_" ++ key)%string in
         let config_topic :=
           (HA_DISCOVERY_PREFIX ++ "/sensor/" ++ unique_id ++ "/config")%string in
         let payload :=
           [ ("name", JStr (DEVICE_NAME ++ " " ++ config_item config "name"));
             ("unique_id", JStr unique_id);
             ("state_topic", JStr (MQTT_TOPIC_BASE ++ "/status"));
             ("value_template", JStr ("{{ value_json." ++ key ++ " }}"));
             ("device", device_info);
             ("qos", JInt 1);
             ("force_update", JBool true) ]%string in
         let payload := dict_update payload (config_without config ["name"%string]) in
         mqtt_publish client config_topic (PDumps (JObj payload)) 1 true ;;;
         log INFO (DiscoveryPublished (config_item config "name") config_topic)) ;;;
       for_each binary_flags (fun '(flag_key, config) =>
         let unique_id := (MQTT_CLIENT_ID ++ "_" ++ lower flag_key)%string in
         let config_topic :=
           (HA_DISCOVERY_PREFIX ++ "/binary_sensor/" ++ unique_id ++ "/config")%string in
         let payload :=
           [ ("name", JStr (DEVICE_NAME ++ " " ++ config_item config "name"));
             ("unique_id", JStr unique_id);
             ("state_topic", JStr (MQTT_TOPIC_BASE ++ "/status"));
             ("device", device_info);
             ("qos", JInt 1);
             ("retain", JBool true) ]%string in
         let payload :=
           dict_set payload "value_template"
             (JStr match dict_get config "value_template" with
                   | Some t => t
                   | None => ("{% if '" ++ flag_key
                              ++ "' in value_json.active_flags %}ON{% else %}OFF{% endif %}")%string
                   end) in
         let payload :=
           dict_update payload
             (config_without config ["name"; "value_template"]%string) in
         mqtt_publish client config_topic (PDumps (JObj payload)) 1 true ;;;
         log INFO (DiscoveryPublishedBinary (config_item config "name") config_topic)) ;;;
       let beep_unique_id := (MQTT_CLIENT_ID ++ "_beep_control")%string in
       let beep_config_topic :=
         (HA_DISCOVERY_PREFIX ++ "/switch/" ++ beep_unique_id ++ "/config")%string in
       let beep_payload :=
         [ ("name", JStr (DEVICE_NAME ++ " Beep Control"));
           ("unique_id", JStr beep_unique_id);
           ("state_topic", JStr (MQTT_TOPIC_BASE ++ "/status"));
           ("value_template",
            JStr "{% if 'BeepLigado' in value_json.active_flags %}ON{% else %}OFF{% endif %}");
           ("command_topic", JStr (MQTT_TOPIC_BASE ++ "/command"));
           ("payload_on", JStr (command_json_text "M"));
           ("payload_off", JStr (command_json_text "M"));
           ("device", device_info);
           ("qos", JInt 1);
           ("retain", JBool true);
           ("icon", JStr "mdi:volume-high") ]%string in
       mqtt_publish client beep_config_topic (PDumps (JObj beep_payload)) 1 true ;;;
       log INFO (DiscoveryPublished "Beep Control" beep_config_topic) ;;;
       for_each buttons_config (fun '(button_key, config) =>
         let unique_id := (MQTT_CLIENT_ID ++ "_" ++ button_key)%string in
         let config_topic :=
           (HA_DISCOVERY_PREFIX ++ "/button/" ++ unique_id ++ "/config")%string in
         let payload :=
           [ ("name", JStr (DEVICE_NAME ++ " " ++ config_item config "name"));
             ("unique_id", JStr unique_id);
             ("command_topic", JStr (MQTT_TOPIC_BASE ++ "/command"));
             ("payload_press",
              JStr (command_json_text (config_item config "command")));
             ("device", device_info);
             ("qos", JInt 1);
             ("retain", JBool true);
             ("icon", JStr (config_item config "icon")) ]%string in
         mqtt_publish client config_topic (PDumps (JObj payload)) 1 true ;;;
         log INFO (DiscoveryPublished (config_item config "name") config_topic))
   end)%monad.

(** [SMSGamerProtocol._on_mqtt_connect]; [userdata] and [flags] are unused. *)
Definition _on_mqtt_connect (client : ClientId) (rc : Z) : M unit :=
  (if rc =? 0
   then
     log INFO MqttConnected ;;;
     mqtt_subscribe client (MQTT_TOPIC_BASE ++ "/command") ;;;
     log INFO (MqttSubscribed (MQTT_TOPIC_BASE ++ "/command")) ;;;
     let command_topic := (MQTT_TOPIC_BASE ++ "/command")%string in
     mqtt_publish client command_topic PNone 1 true ;;;
     log INFO (MqttRetainedCleared command_topic) ;;;
     publish_discovery_messages
   else log ERROR (MqttConnectFailed rc))%monad.

(** ** Reference definitions used to state the properties *)

Definition is_byte (v : Z) : Prop := 0 <= v <= 255.

(** The names of the set bits of a flags byte, most significant bit first,
    written out bit by bit. *)
Definition names_of_set_bits (extra : Z) : list string :=
  let name_if (bit : Z) (name : string) : list string :=
    if Z.testbit extra bit then [name] else [] in
  List.concat
    [ name_if 7 "BateriaEmUso"; name_if 6 "BateriaBaixa"; name_if 5 "ByPass";
      name_if 4 "Boost"; name_if 3 "UpsOk"; name_if 2 "TesteAtivo";
      name_if 1 "ShutdownAtivo"; name_if 0 "BeepLigado" ]%string.

(** The response after the optional terminator has been dropped, as the
    first statement of the [try] block leaves it. *)
Definition stripped (response : bytes) : bytes :=
  match py_index response (-1) with
  | Ok last => if byte_val last =? 0x0D then py_slice response 0 (-1)
               else response
  | Raise _ => response
  end.

(** Calls on an MQTT client. *)
Definition is_mqtt_call (e : Event) : bool :=
  match e with
  | MqttReconnectDelaySet _ _ _ | MqttConnect _ _ | MqttLoopStart _
  | MqttSubscribe _ _ | MqttPublish _ _ _ _ _ => true
  | _ => false
  end.

(** The inbound command topic. *)
Definition command_topic : string := "sms_gamer/ups/command".

(** The discovery set: seven sensors, eight binary sensors, the beep switch
    and four buttons, by configuration topic. *)
Definition discovery_topics : list string :=
  [ "homeassistant/sensor/sms_gamer_monitor_vin/config";
    "homeassistant/sensor/sms_gamer_monitor_vout/config";
    "homeassistant/sensor/sms_gamer_monitor_load_percent/config";
    "homeassistant/sensor/sms_gamer_monitor_frequency/config";
    "homeassistant/sensor/sms_gamer_monitor_battery_percent/config";
    "homeassistant/sensor/sms_gamer_monitor_temperature/config";
    "homeassistant/sensor/sms_gamer_monitor_active_flags_str/config";
    "homeassistant/binary_sensor/sms_gamer_monitor_bateriaemuso/config";
    "homeassistant/binary_sensor/sms_gamer_monitor_bateriabaixa/config";
    "homeassistant/binary_sensor/sms_gamer_monitor_bypass/config";
    "homeassistant/binary_sensor/sms_gamer_monitor_boost/config";
    "homeassistant/binary_sensor/sms_gamer_monitor_upsok/config";
    "homeassistant/binary_sensor/sms_gamer_monitor_testeativo/config";
    "homeassistant/binary_sensor/sms_gamer_monitor_shutdownativo/config";
    "homeassistant/binary_sensor/sms_gamer_monitor_beepligado/config";
    "homeassistant/switch/sms_gamer_monitor_beep_control/config";
    "homeassistant/button/sms_gamer_monitor_battery_test/config";
    "homeassistant/button/sms_gamer_monitor_battery_discharge/config";
    "homeassistant/button/sms_gamer_monitor_cancel_action/config";
    "homeassistant/button/sms_gamer_monitor_shutdown_restore/config" ]%string.

(** No string occurs twice. *)
Fixpoint distinct (l : list string) : bool :=
  match l with
  | [] => true
  | x :: rest => negb (existsb (String.eqb x) rest) && distinct rest
  end.

(** A retained QoS-1 publication of some JSON document on [topic]. *)
Definition retained_config (client : ClientId) (e : Event) (topic : string)
  : Prop :=
  exists j, e = MqttPublish client topic (PDumps j) 1 true.

(** A session as [__init__] leaves it. *)
Definition initial_session : Session :=
  {| connected := false; serial := None; mqtt_client := None |}.

(** A bridging session: [connect] has opened the serial port and
    [connect_mqtt] has created the MQTT client. *)
Definition bridging_session : Session :=
  {| connected := true;
     serial := Some {| is_open := true |};
     mqtt_client := Some 1%nat |}.

(** A session in the middle of [disconnect]: the serial port is closed and
    the flag cleared, the MQTT client is still there. *)
Definition closing_session : Session :=
  {| connected := false;
     serial := Some {| is_open := false |};
     mqtt_client := Some 1%nat |}.

(** [bs.decode()] for a payload of ASCII characters. *)
Definition ascii_decode (bs : bytes) : Result string :=
  if forallb (fun b => byte_val b <? 128) bs
  then Ok (string_of_list_ascii (map ascii_of_byte bs))
  else Raise UnicodeDecodeError.

(** [text.encode()] for ASCII text. *)
Definition ascii_encode (text : string) : bytes :=
  map byte_of_ascii (list_ascii_of_string text).

Definition has_char (c : ascii) (text : string) : bool :=
  existsb (Ascii.eqb c) (list_ascii_of_string text).

(** [json.loads] restricted to the documents [{"command": "<key>"}] whose key
    needs no escape; any other text is refused. *)
Definition loads_command_object (text : string) : Result json :=
  let opening := ("{" ++ dq ++ "command" ++ dq ++ ": " ++ dq)%string in
  let closing := (dq ++ "}")%string in
  let n := (String.length text - String.length opening
            - String.length closing)%nat in
  let key := substring (String.length opening) n text in
  if (String.eqb text (opening ++ key ++ closing)
      && negb (has_char "034" key) && negb (has_char "092" key))%bool
  then Ok (JObj [("command"%string, JStr key)])
  else Raise JSONDecodeError.

(** An environment to run examples in: the line accepts every write and
    answers with [reply], and the broker is reachable. *)
Definition sample_env (reply : bytes) : Env :=
  {| serial_write_raises := fun _ _ => None;
     serial_read_result := fun _ _ => Ok reply;
     mqtt_connect_raises := fun _ => None;
     bytes_decode := ascii_decode;
     json_loads := loads_command_object |}.

(** The same with a serial line on which every write raises. *)
Definition failing_line_env : Env :=
  {| serial_write_raises := fun _ _ => Some SerialException;
     serial_read_result := fun _ _ => Ok [];
     mqtt_connect_raises := fun _ => None;
     bytes_decode := ascii_decode;
     json_loads := loads_command_object |}.

(** An inbound message on the command topic. *)
Definition command_message (text : string) : MQTTMessage :=
  {| topic := command_topic; payload := ascii_encode text |}.

(** The buffer of the specification's decoding example: 16 payload bytes and
    the terminator. *)
Definition sample_q_payload : bytes :=
  [x00; x00; x00; x09; x60; x00; xe6; x00; x00; x02; x58; x03; x84; x01; xf4;
   x81].

Definition sample_q_response : bytes := sample_q_payload ++ [x0d].

Definition sample_time : string := "2025-01-01 12:00:00".

(** ** More reference definitions *)

(** Byte [i] of a buffer ([x00] past its end). *)
Definition byte_at (p : bytes) (i : nat) : byte := nth i p x00.

(** Unsigned big-endian values written out byte by byte. *)
Definition u16 (b0 b1 : byte) : Z := 256 * byte_val b0 + byte_val b1.

Definition u32 (b0 b1 b2 b3 : byte) : Z :=
  16777216 * byte_val b0 + 65536 * byte_val b1
  + 256 * byte_val b2 + byte_val b3.

(** The eight binary digits of a flags byte, bit 7 first. *)
Definition bits8 (extra : Z) : string :=
  let digit (bit : Z) : ascii :=
    if Z.testbit extra bit then "1"%char else "0"%char in
  string_of_list_ascii
    [digit 7; digit 6; digit 5; digit 4; digit 3; digit 2; digit 1; digit 0].

(** How many characters of [s] are [c]. *)
Definition count_char (c : ascii) (s : string) : nat :=
  List.length (filter (Ascii.eqb c) (list_ascii_of_string s)).

(** Every byte value, in increasing order. *)
Definition all_bytes : list byte :=
  flat_map (fun n => match Byte.of_N (N.of_nat n) with
                     | Some b => [b]
                     | None => []
                     end)
           (seq 0 256).

(** The summary string a flags byte is given. *)
Definition summary_of (b : byte) : string := flags_str (flags_on (byte_val b)).

(** The packets written to the serial line, in order. *)
Definition writes (evs : list Event) : list bytes :=
  flat_map (fun e => match e with SerialWrite p => [p] | _ => [] end) evs.

(** A well-formed command frame: six bytes that sum to 0 modulo 256,
    followed by the terminator. *)
Definition valid_frame (packet : bytes) : Prop :=
  exists b0 b1 b2 b3 b4 bc,
    packet = [b0; b1; b2; b3; b4; bc; x0d] /\
    (byte_val b0 + byte_val b1 + byte_val b2 + byte_val b3 + byte_val b4
     + byte_val bc) mod 256 = 0.

(** [packet] is the frame of the registry entry [key]. *)
Definition frame_of_key (key : string) (packet : bytes) : Prop :=
  exists cmd_byte p1 p2 p3 p4,
    dict_get SMS_GAMER_COMMANDS_PARAMS key = Some (cmd_byte, p1, p2, p3, p4) /\
    build_full_command cmd_byte p1 p2 p3 p4 = Ok packet.

(** ** The first variant of the bridge ([add-on/SMS_monitor.py]) *)

(** The identifiers its constructor stores in [self]. *)
Record BridgeConfig : Type := {
  cfg_client_id : string;
  cfg_topic_base : string;
  cfg_discovery_prefix : string;
  cfg_device_name : string;
  cfg_device_manufacturer : string;
  cfg_device_model : string;
  cfg_device_sw_version : string
}.

(** The identifiers of the second variant, which are module constants
    there. *)
Definition module_config : BridgeConfig :=
  {| cfg_client_id := MQTT_CLIENT_ID;
     cfg_topic_base := MQTT_TOPIC_BASE;
     cfg_discovery_prefix := HA_DISCOVERY_PREFIX;
     cfg_device_name := DEVICE_NAME;
     cfg_device_manufacturer := DEVICE_MANUFACTURER;
     cfg_device_model := DEVICE_MODEL;
     cfg_device_sw_version := DEVICE_SW_VERSION |}.

(** One of the four button blocks of the first variant, which are written
    out one after the other with these values. *)
Definition addon_button (cfg : BridgeConfig) (client : ClientId)
           (device_info : json) (key name command icon : string) : M unit :=
  (let button_unique_id := (cfg_client_id cfg ++ "_" ++ key)%string in
   let button_config_topic :=
     (cfg_discovery_prefix cfg ++ "/button/" ++ button_unique_id
      ++ "/config")%string in
   let button_payload :=
     [ ("name", JStr (cfg_device_name cfg ++ " " ++ name));
       ("unique_id", JStr button_unique_id);
       ("command_topic", JStr (cfg_topic_base cfg ++ "/command"));
       ("payload_press", JStr (command_json_text command));
       ("device", device_info);
       ("qos", JInt 1);
       ("retain", JBool true);
       ("icon", JStr icon) ]%string in
   mqtt_publish client button_config_topic (PDumps (JObj button_payload))
                1 true ;;;
   log INFO (DiscoveryPublished name button_config_topic))%monad.

(** [SMSGamerProtocol.publish_discovery_messages] of the first variant. *)
Definition addon_publish_discovery_messages (cfg : BridgeConfig) : M unit :=
  (s <- get_session ;;
   match mqtt_client s with
   | None => log ERROR DiscoveryNoClient
   | Some client =>
       let device_info :=
         JObj [ ("identifiers", JArr [JStr (cfg_client_id cfg)]);
                ("name", JStr (cfg_device_name cfg));
                ("manufacturer", JStr (cfg_device_manufacturer cfg));
                ("model", JStr (cfg_device_model cfg));
                ("sw_version", JStr (cfg_device_sw_version cfg)) ]%string in
       for_each sensors_to_discover (fun '(key, config) =>
         let unique_id := (cfg_client_id cfg ++ "_" ++ key)%string in
         let config_topic :=
           (cfg_discovery_prefix cfg ++ "/sensor/" ++ unique_id
            ++ "/config")%string in
         let payload :=
           [ ("name", JStr (cfg_device_name cfg ++ " "
                            ++ config_item config "name"));
             ("unique_id", JStr unique_id);
             ("state_topic", JStr (cfg_topic_base cfg ++ "/status"));
             ("value_template", JStr ("{{ value_json." ++ key ++ " }}"));
             ("device", device_info);
             ("qos", JInt 1);
             ("force_update", JBool true) ]%string in
         let payload :=
           dict_update payload (config_without config ["name"%string]) in
         mqtt_publish client config_topic (PDumps (JObj payload)) 1 true ;;;
         log INFO (DiscoveryPublished (config_item config "name")
                                      config_topic)) ;;;
       for_each binary_flags (fun '(flag_key, config) =>
         let unique_id := (cfg_client_id cfg ++ "_" ++ lower flag_key)%string in
         let config_topic :=
           (cfg_discovery_prefix cfg ++ "/binary_sensor/" ++ unique_id
            ++ "/config")%string in
         let payload :=
           [ ("name", JStr (cfg_device_name cfg ++ " "
                            ++ config_item config "name"));
             ("unique_id", JStr unique_id);
             ("state_topic", JStr (cfg_topic_base cfg ++ "/status"));
             ("device", device_info);
             ("qos", JInt 1);
             ("retain", JBool true) ]%string in
         let payload :=
           dict_set payload "value_template"
             (JStr match dict_get config "value_template" with
                   | Some t => t
                   | None => ("{% if '" ++ flag_key
                              ++ "' in value_json.active_flags %}ON{% else %}OFF{% endif %}")%string
                   end) in
         let payload :=
           dict_update payload
             (config_without config ["name"; "value_template"]%string) in
         mqtt_publish client config_topic (PDumps (JObj payload)) 1 true ;;;
         log INFO (DiscoveryPublishedBinary (config_item config "name")
                                            config_topic)) ;;;
       let beep_unique_id := (cfg_client_id cfg ++ "_beep_control")%string in
       let beep_config_topic :=
         (cfg_discovery_prefix cfg ++ "/switch/" ++ beep_unique_id
          ++ "/config")%string in
       let beep_payload :=
         [ ("name", JStr (cfg_device_name cfg ++ " Beep Control"));
           ("unique_id", JStr beep_unique_id);
           ("state_topic", JStr (cfg_topic_base cfg ++ "/status"));
           ("value_template",
            JStr "{% if 'BeepLigado' in value_json.active_flags %}ON{% else %}OFF{% endif %}");
           ("command_topic", JStr (cfg_topic_base cfg ++ "/command"));
           ("payload_on", JStr (command_json_text "M"));
           ("payload_off", JStr (command_json_text "M"));
           ("device", device_info);
           ("qos", JInt 1);
           ("retain", JBool true);
           ("icon", JStr "mdi:volume-high") ]%string in
       mqtt_publish client beep_config_topic (PDumps (JObj beep_payload))
                    1 true ;;;
       log INFO (DiscoveryPublished "Beep Control" beep_config_topic) ;;;
       addon_button cfg client device_info "battery_test" "Battery Test" "T"
                    "mdi:battery-charging" ;;;
       addon_button cfg client device_info "battery_discharge"
                    "Battery Discharge" "D" "mdi:battery-alert" ;;;
       addon_button cfg client device_info "cancel_action" "Cancel Action"
                    "C" "mdi:cancel" ;;;
       addon_button cfg client device_info "shutdown_restore"
                    "Shutdown & Restore" "R" "mdi:power-cycle"
   end)%monad.

(** ** Reading the discovery publications *)

(** The retained documents among [evs], as (topic, document). *)
Definition published_documents (evs : list Event)
  : list (string * list (string * json)) :=
  flat_map (fun e => match e with
                     | MqttPublish _ topic (PDumps (JObj doc)) _ _ =>
                         [(topic, doc)]
                     | _ => []
                     end) evs.

(** The documents [publish_discovery_messages] publishes. *)
Definition discovery_documents : list (string * list (string * json)) :=
  published_documents
    (snd (publish_discovery_messages (sample_env []) [] bridging_session)).

(** The string stored under [k] in a document, if any. *)
Definition doc_string (doc : list (string * json)) (k : string)
  : option string :=
  match dict_get doc k with
  | Some (JStr v) => Some v
  | _ => None
  end.

(** The command payloads a document tells Home Assistant to send. *)
Definition advertised_in (doc : list (string * json)) : list string :=
  flat_map (fun k => match doc_string doc k with
                     | Some v => [v]
                     | None => []
                     end)
           ["payload_on"; "payload_off"; "payload_press"]%string.

Definition advertised_commands : list string :=
  flat_map (fun '(_, doc) => advertised_in doc) discovery_documents.

(** The discovery documents of one component, in publication order. *)
Definition documents_of (component : string)
  : list (string * list (string * json)) :=
  filter (fun '(topic, _) =>
            String.prefix (HA_DISCOVERY_PREFIX ++ "/" ++ component ++ "/") topic)
         discovery_documents.

(** The topic the status is published on. *)
Definition status_topic : string := "sms_gamer/ups/status".





(** ** Connection life cycle and the polling loop

    The methods below log messages and call library functions that the
    methods above do not; their events wrap the events above. *)

Inductive RuntimeLog : Type :=
| SerialConnected (port : option string) (baud_rate timeout : Z)
| SerialConnectError (e : Exn)
| SerialDisconnected
| MqttSessionClosed
| ResponseTooShort (n : Z)
| InterpretError (e : Exn)
| MonitorNoSerial
| MonitorNoMqtt
| MonitorStarted (interval : Q)
| StatusPublished (topic : string)
| StatusNotInterpreted
| StatusNoResponse
| AddonMqttConnected (topic : string)
| AddonRetainedCleared (topic : string)
| AddonMqttConnectError (e : Exn).

Inductive RuntimeEvent : Type :=
| Core (e : Event)
| RuntimeLogged (level : Level) (msg : RuntimeLog)
| SerialOpen (port : option string) (baudrate timeout : Z)
| SerialClose
| MqttDisconnect (client : ClientId)
| MqttLoopStop (client : ClientId).

(** The events of the methods above within a longer history. *)
Definition core_history (h : list RuntimeEvent) : list Event :=
  flat_map (fun e => match e with Core e' => [e'] | _ => [] end) h.

(** The environment, extended with what [serial.Serial(...)] and
    [time.strftime] do. *)
Record RuntimeEnv : Type := {
  core_env : Env;
  serial_open_raises : list RuntimeEvent -> option Exn;
  strftime : list RuntimeEvent -> string
}.

Definition R (A : Type) : Type :=
  RuntimeEnv -> list RuntimeEvent -> Session
  -> Result A * Session * list RuntimeEvent.

Definition rret {A} (a : A) : R A := fun _ _ s => (Ok a, s, []).

Definition rraise {A} (e : Exn) : R A := fun _ _ s => (Raise e, s, []).

Definition rthen {A B} (m : R A) (k : A -> R B) : R B :=
  fun env h s =>
    match m env h s with
    | (Ok a, s1, ev1) =>
        match k a env (h ++ ev1) s1 with
        | (r, s2, ev2) => (r, s2, ev1 ++ ev2)
        end
    | (Raise e, s1, ev1) => (Raise e, s1, ev1)
    end.

(** [try: body except Exception as e: handler(e)] *)
Definition rtry {A} (body : R A) (handler : Exn -> R A) : R A :=
  fun env h s =>
    match body env h s with
    | (Ok a, s1, ev1) => (Ok a, s1, ev1)
    | (Raise e, s1, ev1) =>
        match handler e env (h ++ ev1) s1 with
        | (r, s2, ev2) => (r, s2, ev1 ++ ev2)
        end
    end.

(** A call of one of the methods above. *)
Definition core {A} (m : M A) : R A :=
  fun env h s =>
    match m (core_env env) (core_history h) s with
    | (r, s1, evs) => (r, s1, map Core evs)
    end.

Definition remit (e : RuntimeEvent) : R unit := fun _ _ s => (Ok tt, s, [e]).

Definition rlog (level : Level) (msg : RuntimeLog) : R unit :=
  remit (RuntimeLogged level msg).

Definition rget : R Session := fun _ _ s => (Ok s, s, []).

Definition rput (s : Session) : R unit := fun _ _ _ => (Ok tt, s, []).

Declare Scope runtime_scope.
Delimit Scope runtime_scope with runtime.
Notation "x <- m ;; k" := (rthen m (fun x => k))
  (at level 61, m at next level, right associativity) : runtime_scope.
Notation "m ;;; k" := (rthen m (fun _ => k))
  (at level 61, right associativity) : runtime_scope.

(** [SMSGamerProtocol.connect]; [port], [baud_rate] and [timeout] are the
    attributes of the same names. [serial.Serial] opens the port it is given
    by name; given [None], as when [main] runs without [--port], it returns
    a port object that is not open. *)
Definition connect (port : option string) (baud_rate timeout : Z) : R bool :=
  (rtry
     ((fun env h s =>
         match serial_open_raises env h with
         | None =>
             (Ok tt,
              {| connected := connected s;
                 serial := Some {| is_open := match port with
                                              | Some _ => true
                                              | None => false
                                              end |};
                 mqtt_client := mqtt_client s |},
              [SerialOpen port baud_rate timeout])
         | Some e => (Raise e, s, [SerialOpen port baud_rate timeout])
         end) ;;;
      s <- rget ;;
      rput {| connected := true; serial := serial s;
              mqtt_client := mqtt_client s |} ;;;
      rlog INFO (SerialConnected port baud_rate timeout) ;;;
      rret true)
     (fun e => rlog ERROR (SerialConnectError e) ;;; rret false))%runtime.

(** [SMSGamerProtocol.disconnect] *)
Definition disconnect : R unit :=
  (s <- rget ;;
   match serial s with
   | Some port =>
       if is_open port
       then
         remit SerialClose ;;;
         rput {| connected := false;
                 serial := Some {| is_open := false |};
                 mqtt_client := mqtt_client s |} ;;;
         rlog INFO SerialDisconnected
       else rret tt
   | None => rret tt
   end ;;;
   s <- rget ;;
   match mqtt_client s with
   | Some client =>
       remit (MqttDisconnect client) ;;;
       remit (MqttLoopStop client) ;;;
       rlog INFO MqttSessionClosed
   | None => rret tt
   end)%runtime.

(** The [data] dictionary as [json.dumps] receives it. *)
Definition status_document (d : QData) : list (string * json) :=
  [ ("vin", JFloat (vin d));
    ("vout", JFloat (vout d));
    ("load_percent", JFloat (load_percent d));
    ("frequency", JFloat (frequency d));
    ("battery_percent", JFloat (battery_percent d));
    ("temperature", JFloat (temperature d));
    ("extra_flags_raw", JInt (extra_flags_raw d));
    ("extra_flags_binary", JStr (extra_flags_binary d));
    ("active_flags", JArr (map JStr (active_flags d)));
    ("active_flags_str", JStr (active_flags_str d));
    ("raw_response_hex", JStr (raw_response_hex d));
    ("timestamp", JStr (timestamp d)) ]%string.

(** A call of [_interpret_q_response], with its log records. *)
Definition interpret_q_logged (response : bytes) : R (option QData) :=
  (fun env h s =>
     match _interpret_q_response (strftime env h) response with
     | ShortResponse n =>
         (Ok None, s, [RuntimeLogged WARNING (ResponseTooShort n)])
     | MalformedResponse e =>
         (Ok None, s, [RuntimeLogged ERROR (InterpretError e)])
     | Decoded data => (Ok (Some data), s, [])
     end).




(** [mqtt_monitor_loop] up to its [while True]: [true] when the loop is
    entered. [new_client] is the client [connect_mqtt] would create;
    [interval] is [None] when the caller passes [None], as [main] does when
    [--interval] is not given. *)
Definition mqtt_monitor_enter (new_client : ClientId) (interval : option Q)
  : R bool :=
  (s <- rget ;;
   if negb (connected s)
   then rlog ERROR MonitorNoSerial ;;; rret false
   else
     ready <- match mqtt_client s with
              | Some _ => rret true
              | None => core (connect_mqtt new_client)
              end ;;
     if negb ready
     then rlog ERROR MonitorNoMqtt ;;; rret false
     else
       core (sleep 2) ;;;
       match interval with
       | Some i => rlog INFO (MonitorStarted i) ;;; rret true
       | None => rraise TypeError
       end)%runtime.



(** The serial port is open whenever the session says it is connected. *)
Definition session_consistent (s : Session) : Prop :=
  connected s = true -> serial s = Some {| is_open := true |}.


(** An environment to run examples in. *)
Definition sample_runtime_env (reply : bytes) : RuntimeEnv :=
  {| core_env := sample_env reply;
     serial_open_raises := fun _ => None;
     strftime := fun _ => sample_time |}.




(** The value template of the binary sensor of flag [name]: the "UPS OK"
    sensor reports a problem when its flag is absent. *)
Definition binary_template (name : string) : string :=
  let '(present, absent) :=
    (if String.eqb name "UpsOk" then ("OFF", "ON") else ("ON", "OFF"))%string
  in
  ("{% if '" ++ name ++ "' in value_json.active_flags %}" ++ present
   ++ "{% else %}" ++ absent ++ "{% endif %}")%string.

(** * Properties of the codec *)

Lemma land_0xFF (a : Z) : Z.land a 0xFF = a mod 256.
Proof. change 0xFF with (Z.ones 8). now rewrite Z.land_ones by lia. Qed.

Lemma round_half_even_integer (x : Q) (z : Z) :
  (x == inject_Z z)%Q -> round_half_even x = z.
Proof.
  intros H. unfold round_half_even.
  rewrite (Qfloor_comp x (inject_Z z) H), Qfloor_Z.
  assert ((x - inject_Z z ?= 1 # 2)%Q = Lt) as ->; [|reflexivity].
  apply Qlt_alt. rewrite H.
  setoid_replace (inject_Z z - inject_Z z)%Q with 0%Q by ring.
  reflexivity.
Qed.

(** Rounding to one decimal leaves a decoded value [raw / 10] as it is. *)
Lemma round1_div10 (raw : Z) : (round1 (div10 raw) == div10 raw)%Q.
Proof.
  unfold round1. rewrite Qred_correct.
  rewrite (round_half_even_integer (div10 raw * 10) raw).
  - unfold div10, Qdiv, Qeq. cbn. lia.
  - unfold div10. field.
Qed.

Lemma pack_B_ok (v : Z) :
  is_byte v -> exists b, pack_B v = Ok b /\ byte_val b = v.
Proof.
  intros [Hlo Hhi]. unfold pack_B.
  replace ((0 <=? v) && (v <=? 255)) with true
    by (symmetry; apply andb_true_iff; split; apply Z.leb_le; lia).
  destruct (Byte.of_N (Z.to_N v)) as [b|] eqn:E.
  - exists b. split; [reflexivity|].
    unfold byte_val. rewrite (Byte.to_of_N _ E). lia.
  - apply Byte.of_N_None_iff in E. lia.
Qed.

Lemma calculate_checksum_mod (opcode p1 p2 p3 p4 : Z) :
  calculate_checksum opcode p1 p2 p3 p4
  = (- (opcode + p1 + p2 + p3 + p4)) mod 256.
Proof.
  unfold calculate_checksum. rewrite land_0xFF.
  now replace (-1 * (opcode + p1 + p2 + p3 + p4))
    with (- (opcode + p1 + p2 + p3 + p4)) by lia.
Qed.

Lemma calculate_checksum_is_byte (opcode p1 p2 p3 p4 : Z) :
  is_byte (calculate_checksum opcode p1 p2 p3 p4).
Proof.
  rewrite calculate_checksum_mod. unfold is_byte.
  pose proof (Z.mod_pos_bound (- (opcode + p1 + p2 + p3 + p4)) 256). lia.
Qed.

(** C1. For all integers, hence for every 5-tuple of byte values,
    [calculate_checksum] is an 8-bit value, it is the negated sum masked to
    8 bits, and the five bytes plus the checksum sum to 0 modulo 256. *)
Theorem calculate_checksum_spec (opcode p1 p2 p3 p4 : Z) :
  let checksum := calculate_checksum opcode p1 p2 p3 p4 in
  0 <= checksum <= 255 /\
  checksum = Z.land (- (opcode + p1 + p2 + p3 + p4)) 0xFF /\
  Z.land (opcode + p1 + p2 + p3 + p4 + checksum) 0xFF = 0.
Proof.
  cbv zeta.
  split; [apply calculate_checksum_is_byte|].
  rewrite calculate_checksum_mod, !land_0xFF.
  set (s := opcode + p1 + p2 + p3 + p4).
  split; [reflexivity|].
  rewrite Z.add_mod_idemp_r by lia.
  replace (s + - s) with 0 by lia. reflexivity.
Qed.

Lemma build_full_command_bytes (opcode p1 p2 p3 p4 : Z) :
  is_byte opcode -> is_byte p1 -> is_byte p2 -> is_byte p3 -> is_byte p4 ->
  exists b0 b1 b2 b3 b4 bc,
    build_full_command opcode p1 p2 p3 p4 = Ok [b0; b1; b2; b3; b4; bc; x0d] /\
    map byte_val [b0; b1; b2; b3; b4; bc] =
      [opcode; p1; p2; p3; p4; calculate_checksum opcode p1 p2 p3 p4].
Proof.
  intros H0 H1 H2 H3 H4.
  pose proof (calculate_checksum_is_byte opcode p1 p2 p3 p4) as Hc.
  destruct (pack_B_ok _ H0) as (b0 & E0 & V0).
  destruct (pack_B_ok _ H1) as (b1 & E1 & V1).
  destruct (pack_B_ok _ H2) as (b2 & E2 & V2).
  destruct (pack_B_ok _ H3) as (b3 & E3 & V3).
  destruct (pack_B_ok _ H4) as (b4 & E4 & V4).
  destruct (pack_B_ok _ Hc) as (bc & Ec & Vc).
  exists b0, b1, b2, b3, b4, bc.
  unfold build_full_command. cbn [struct_pack_B].
  rewrite E0, E1, E2, E3, E4, Ec. cbn.
  rewrite V0, V1, V2, V3, V4, Vc. split; reflexivity.
Qed.

(** C2. On byte inputs [build_full_command] never raises and returns exactly
    seven bytes: the five protocol bytes in order, the checksum, then 0x0D. *)
Theorem build_full_command_frame (opcode p1 p2 p3 p4 : Z) :
  is_byte opcode -> is_byte p1 -> is_byte p2 -> is_byte p3 -> is_byte p4 ->
  exists frame,
    build_full_command opcode p1 p2 p3 p4 = Ok frame /\
    map byte_val frame =
      [opcode; p1; p2; p3; p4; calculate_checksum opcode p1 p2 p3 p4; 0x0D] /\
    List.length frame = 7%nat.
Proof.
  intros H0 H1 H2 H3 H4.
  destruct (build_full_command_bytes opcode p1 p2 p3 p4 H0 H1 H2 H3 H4)
    as (b0 & b1 & b2 & b3 & b4 & bc & E & V).
  exists [b0; b1; b2; b3; b4; bc; x0d]. split; [exact E|].
  split; [|reflexivity].
  change [b0; b1; b2; b3; b4; bc; x0d] with ([b0; b1; b2; b3; b4; bc] ++ [x0d]).
  rewrite map_app, V. reflexivity.
Qed.

(** The frame of the status query, 51 ff ff ff ff b3 0d. *)
Lemma build_full_command_frame_witness :
  exists frame,
    build_full_command 0x51 0xFF 0xFF 0xFF 0xFF = Ok frame /\
    map byte_val frame = [0x51; 0xFF; 0xFF; 0xFF; 0xFF; 0xB3; 0x0D] /\
    List.length frame = 7%nat.
Proof.
  apply (build_full_command_frame 0x51 0xFF 0xFF 0xFF 0xFF);
    unfold is_byte; lia.
Defined.

(** *** Slicing and indexing *)

Lemma py_slice_length {A} (l : list A) (lo hi : Z) :
  0 <= lo -> lo <= hi -> hi <= len l ->
  List.length (py_slice l lo hi) = Z.to_nat (hi - lo).
Proof.
  intros Hlo Hhi Hlen. unfold py_slice, slice_bound.
  destruct (Z.ltb_spec lo 0); [lia|].
  destruct (Z.ltb_spec hi 0); [lia|].
  rewrite length_firstn, length_skipn. unfold len in *. lia.
Qed.

Lemma py_slice_drop_last {A} (l : list A) (x : A) :
  py_slice (l ++ [x]) 0 (-1) = l.
Proof.
  unfold py_slice, slice_bound, len. rewrite length_app. cbn [List.length].
  change (0 <? 0) with false. change (-1 <? 0) with true. cbv iota.
  replace (Z.min 0 (Z.of_nat (List.length l + 1))) with 0 by lia.
  replace (Z.to_nat (Z.max 0 (-1 + Z.of_nat (List.length l + 1)) - 0))
    with (List.length l) by lia.
  cbn [Z.to_nat skipn].
  rewrite firstn_app, firstn_all, Nat.sub_diag. cbn. apply app_nil_r.
Qed.

Lemma py_index_in_range {A} (l : list A) (i : Z) :
  0 <= i < len l -> exists x, py_index l i = Ok x.
Proof.
  intros H. unfold py_index.
  destruct (Z.ltb_spec i 0); [lia|].
  destruct (Z.ltb_spec i 0); [lia|].
  destruct (Z.leb_spec (len l) i); [lia|]. cbn [orb].
  destruct (nth_error l (Z.to_nat i)) eqn:E; [now eexists|].
  apply nth_error_None in E. unfold len in *. lia.
Qed.

Lemma py_index_last {A} (l : list A) (x : A) :
  py_index (l ++ [x]) (-1) = Ok x.
Proof.
  unfold py_index, len. rewrite length_app. cbn [List.length].
  change (-1 <? 0) with true. cbv iota.
  destruct (Z.ltb_spec (-1 + Z.of_nat (List.length l + 1)) 0); [lia|].
  destruct (Z.leb_spec (Z.of_nat (List.length l + 1))
                       (-1 + Z.of_nat (List.length l + 1))); [lia|].
  cbn [orb].
  replace (Z.to_nat (-1 + Z.of_nat (List.length l + 1)))
    with (List.length l + 0)%nat by lia.
  now rewrite nth_error_app2, Nat.add_comm, Nat.add_sub by lia.
Qed.

Lemma struct_unpack_be_slice (size : nat) (l : bytes) (lo hi : Z) :
  0 <= lo -> hi = lo + Z.of_nat size -> hi <= len l ->
  struct_unpack_be size (py_slice l lo hi) = Ok (be_value (py_slice l lo hi)).
Proof.
  intros Hlo Hhi Hlen. unfold struct_unpack_be.
  rewrite py_slice_length by lia.
  replace (Z.to_nat (hi - lo)) with size by lia.
  now rewrite Nat.eqb_refl.
Qed.

Lemma stripped_length (response : bytes) :
  len response - 1 <= len (stripped response).
Proof.
  unfold stripped.
  destruct (py_index response (-1)) as [last|]; [|lia].
  destruct (byte_val last =? 0x0D); [|lia].
  destruct response as [|b l] using rev_ind; [cbn; lia|].
  rewrite py_slice_drop_last. unfold len. rewrite length_app. cbn. lia.
Qed.

Lemma interpret_q_body_stripped (now : string) (response : bytes) :
  response <> [] ->
  interpret_q_body now response =
  (let response := stripped response in
   vin_raw <- struct_unpack_be 4 (py_slice response 1 5) ;;
   vout_raw <- struct_unpack_be 2 (py_slice response 5 7) ;;
   power_raw <- struct_unpack_be 2 (py_slice response 7 9) ;;
   freq_raw <- struct_unpack_be 2 (py_slice response 9 11) ;;
   batt_raw <- struct_unpack_be 2 (py_slice response 11 13) ;;
   temp_raw <- struct_unpack_be 2 (py_slice response 13 15) ;;
   extra_b <- py_index response 15 ;;
   Ok {| vin := round1 (div10 vin_raw);
         vout := round1 (div10 vout_raw);
         load_percent := round1 (div10 power_raw);
         frequency := round1 (div10 freq_raw);
         battery_percent := round1 (div10 batt_raw);
         temperature := round1 (div10 temp_raw);
         extra_flags_raw := byte_val extra_b;
         extra_flags_binary := format_08b (byte_val extra_b);
         active_flags := flags_on (byte_val extra_b);
         active_flags_str := flags_str (flags_on (byte_val extra_b));
         raw_response_hex := hex response;
         timestamp := now |})%result.
Proof.
  intros Hne. unfold interpret_q_body, stripped.
  destruct response as [|b l] using rev_ind; [congruence|].
  rewrite py_index_last. reflexivity.
Qed.

(** Every response of at least 17 bytes goes through the whole [try] block. *)
Lemma interpret_q_body_ok (now : string) (response : bytes) :
  (17 <= List.length response)%nat ->
  exists d, interpret_q_body now response = Ok d /\
            raw_response_hex d = hex (stripped response).
Proof.
  intros Hlen.
  rewrite interpret_q_body_stripped by (destruct response; cbn in *; [lia|congruence]).
  cbv zeta.
  pose proof (stripped_length response) as Hs.
  assert (16 <= len (stripped response)) by (unfold len in *; lia).
  rewrite (struct_unpack_be_slice 4 _ 1 5) by lia.
  rewrite !(struct_unpack_be_slice 2) by lia.
  destruct (py_index_in_range (stripped response) 15) as [b Eb]; [lia|].
  rewrite Eb. cbn [rbind]. eexists. split; reflexivity.
Qed.

(** A successful decode takes its flags from byte 15 of the stripped
    response. *)
Lemma interpret_q_flags (now : string) (response : bytes) (d : QData) :
  _interpret_q_response now response = Decoded d ->
  exists b, py_index (stripped response) 15 = Ok b /\
            extra_flags_raw d = byte_val b /\
            active_flags d = flags_on (byte_val b) /\
            active_flags_str d = flags_str (active_flags d).
Proof.
  unfold _interpret_q_response.
  destruct ((len response =? 0) || (len response <? 17)) eqn:G; [discriminate|].
  assert (Hne : response <> []).
  { intros ->. cbn in G. discriminate. }
  rewrite interpret_q_body_stripped by assumption. cbv zeta.
  repeat match goal with
         | |- context [rbind ?r _] =>
             destruct r; cbn [rbind]; [|discriminate]
         end.
  intros [= <-]. eexists. repeat split.
Qed.

(** *** Flags *)

Lemma land_bit_test (a n : Z) :
  0 <= n -> (Z.land a (Z.shiftl 1 n) =? 0) = negb (Z.testbit a n).
Proof.
  intros Hn. rewrite Z.shiftl_1_l.
  destruct (Z.testbit a n) eqn:E; cbn [negb].
  - apply Z.eqb_neq. intros H0.
    assert (Z.testbit (Z.land a (2 ^ n)) n = true) as Hb
      by (rewrite Z.land_spec, E, Z.pow2_bits_true; auto).
    rewrite H0, Z.bits_0 in Hb. discriminate.
  - apply Z.eqb_eq, Z.bits_inj'. intros m Hm.
    rewrite Z.land_spec, Z.bits_0, Z.pow2_bits_eqb by assumption.
    destruct (Z.eqb_spec n m); [subst; rewrite E|]; now rewrite ?andb_false_r.
Qed.

Lemma flags_on_set_bits (extra : Z) : flags_on extra = names_of_set_bits extra.
Proof.
  unfold flags_on, names_of_set_bits, flags_bits. cbn [filter].
  rewrite !land_bit_test, !negb_involutive by lia.
  destruct (Z.testbit extra 7), (Z.testbit extra 6), (Z.testbit extra 5),
    (Z.testbit extra 4), (Z.testbit extra 3), (Z.testbit extra 2),
    (Z.testbit extra 1), (Z.testbit extra 0); reflexivity.
Qed.

(** *** Decoding the status response *)

Lemma sample_response_value (now : string) :
  _interpret_q_response now sample_q_response =
  Decoded {| vin := 240;
             vout := 23;
             load_percent := 0;
             frequency := 60;
             battery_percent := 90;
             temperature := 50;
             extra_flags_raw := 0x81;
             extra_flags_binary := "10000001";
             active_flags := ["BateriaEmUso"; "BeepLigado"]%string;
             active_flags_str := "BateriaEmUso, BeepLigado";
             raw_response_hex := "000000096000e600000258038401f481";
             timestamp := now |}.
Proof.
  unfold _interpret_q_response.
  change ((len sample_q_response =? 0) || (len sample_q_response <? 17))
    with false. cbv iota.
  rewrite interpret_q_body_stripped by discriminate.
  vm_compute. reflexivity.
Qed.

Lemma short_guard (now : string) (response : bytes) :
  (List.length response < 17)%nat ->
  _interpret_q_response now response = ShortResponse (len response).
Proof.
  intros Hlen. unfold _interpret_q_response.
  destruct (Z.ltb_spec (len response) 17) as [_|Hge];
    [now rewrite orb_true_r|].
  unfold len in Hge. lia.
Qed.

(** C3 (as stated). On the specification's example buffer, which has 17
    bytes and not 18, the decoder yields a vin that is not 24.0, a battery
    level that is not 100.0 and flag names that are not "BatteryInUse" and
    "BeepOn"; so it does not yield the listed values. *)
Lemma sample_response_not_as_claimed :
  List.length sample_q_response <> 18%nat /\
  (exists d,
     _interpret_q_response sample_time sample_q_response = Decoded d /\
     ~ (vin d == 24)%Q /\ ~ (battery_percent d == 100)%Q /\
     active_flags d <> ["BatteryInUse"; "BeepOn"]%string) /\
  ~ (exists d,
       _interpret_q_response sample_time sample_q_response = Decoded d /\
       (vin d == 24)%Q /\ (vout d == 23)%Q /\ (load_percent d == 0)%Q /\
       (frequency d == 60)%Q /\ (battery_percent d == 100)%Q /\
       (temperature d == 50)%Q).
Proof.
  split; [discriminate|]. split.
  - eexists. split; [apply sample_response_value|].
    cbn. unfold Qeq. cbn. repeat split; discriminate.
  - intros (d & E & Hvin & _).
    rewrite sample_response_value in E. injection E as <-.
    cbn in Hvin. unfold Qeq in Hvin. cbn in Hvin. discriminate.
Qed.

(** C3 (amended). The example buffer has 17 bytes; it decodes to vin 240.0,
    vout 23.0, load 0.0, frequency 60.0, battery 90.0, temperature 50.0 and
    the flags of bits 7 and 0. *)
Theorem sample_response_decodes (now : string) :
  List.length sample_q_response = 17%nat /\
  _interpret_q_response now sample_q_response =
  Decoded {| vin := 240;
             vout := 23;
             load_percent := 0;
             frequency := 60;
             battery_percent := 90;
             temperature := 50;
             extra_flags_raw := 0x81;
             extra_flags_binary := "10000001";
             active_flags := ["BateriaEmUso"; "BeepLigado"]%string;
             active_flags_str := "BateriaEmUso, BeepLigado";
             raw_response_hex := "000000096000e600000258038401f481";
             timestamp := now |}.
Proof.
  split; [reflexivity | apply sample_response_value].
Qed.

(** C4. A response shorter than 17 bytes, empty or not, ending in 0x0D or
    not, is refused by the length guard and nothing is returned; the guard
    sees the response with its terminator still in place. *)
Theorem short_response_rejected (now : string) (response : bytes) :
  (List.length response < 17)%nat ->
  _interpret_q_response now response = ShortResponse (len response) /\
  returned (_interpret_q_response now response) = None /\
  (forall body, response = body ++ [x0d] ->
     _interpret_q_response now response = ShortResponse (len body + 1)).
Proof.
  intros Hlen.
  rewrite (short_guard now response Hlen). repeat split.
  intros body ->. f_equal. unfold len. rewrite length_app. cbn. lia.
Qed.

(** A three-byte answer that ends in the terminator. *)
Lemma short_response_rejected_witness :
  _interpret_q_response sample_time [x00; x01; x0d] = ShortResponse 3 /\
  returned (_interpret_q_response sample_time [x00; x01; x0d]) = None /\
  (forall body, [x00; x01; x0d] = body ++ [x0d] ->
     _interpret_q_response sample_time [x00; x01; x0d]
     = ShortResponse (len body + 1)).
Proof.
  apply (short_response_rejected sample_time [x00; x01; x0d]). cbn. lia.
Defined.

(** C5 (as stated). Sixteen payload bytes followed by 0x0D are not rejected:
    16 bytes remain after the terminator is dropped, and the decoder returns
    a dictionary. *)
Lemma sixteen_bytes_and_terminator_decode :
  List.length sample_q_payload = 16%nat /\
  stripped (sample_q_payload ++ [x0d]) = sample_q_payload /\
  returned (_interpret_q_response sample_time (sample_q_payload ++ [x0d]))
  <> None.
Proof.
  split; [reflexivity|]. split; [reflexivity|].
  pose proof (sample_response_value sample_time) as E.
  unfold sample_q_response in E. rewrite E. discriminate.
Qed.

(** C5 (amended). Decoding is refused exactly when the response, terminator
    included, has fewer than 17 bytes; every response of 17 bytes or more is
    decoded, from what is left once a trailing 0x0D is dropped; so 16 payload
    bytes followed by 0x0D are accepted and decoded from the 16 bytes. *)
Theorem length_guard_before_strip (now : string) (response : bytes) :
  ((List.length response < 17)%nat ->
   _interpret_q_response now response = ShortResponse (len response)) /\
  ((17 <= List.length response)%nat ->
   exists d, _interpret_q_response now response = Decoded d /\
             raw_response_hex d = hex (stripped response)) /\
  (forall body, response = body ++ [x0d] -> List.length body = 16%nat ->
   exists d, _interpret_q_response now response = Decoded d /\
             raw_response_hex d = hex body).
Proof.
  assert (Hge : (17 <= List.length response)%nat ->
                exists d, _interpret_q_response now response = Decoded d /\
                          raw_response_hex d = hex (stripped response)).
  { intros Hlen. unfold _interpret_q_response.
    destruct (Z.eqb_spec (len response) 0) as [H0|_];
      [unfold len in H0; lia|].
    destruct (Z.ltb_spec (len response) 17) as [Hlt|_];
      [unfold len in Hlt; lia|].
    cbn [orb].
    destruct (interpret_q_body_ok now response Hlen) as (d & -> & Hhex).
    now exists d. }
  split; [|split].
  - apply short_guard.
  - exact Hge.
  - intros body -> Hbody.
    destruct Hge as (d & E & Hhex); [rewrite length_app; cbn; lia|].
    exists d. split; [exact E|]. rewrite Hhex. f_equal.
    unfold stripped. rewrite py_index_last.
    change (byte_val x0d =? 13) with true. cbv iota.
    apply py_slice_drop_last.
Qed.

(** The example buffer: 16 payload bytes and the terminator. *)
Lemma length_guard_before_strip_witness :
  (exists d, _interpret_q_response sample_time sample_q_response = Decoded d /\
             raw_response_hex d = hex (stripped sample_q_response)) /\
  (exists d, _interpret_q_response sample_time sample_q_response = Decoded d /\
             raw_response_hex d = hex sample_q_payload).
Proof.
  destruct (length_guard_before_strip sample_time sample_q_response)
    as (_ & Hge & Hstrip).
  split.
  - apply Hge. cbn. lia.
  - apply (Hstrip sample_q_payload); reflexivity.
Defined.

(** Flags bytes used below: no bit set. *)
Lemma zero_flags_response_decodes :
  exists d,
    _interpret_q_response sample_time (repeat x00 16 ++ [x0d]) = Decoded d /\
    extra_flags_raw d = 0 /\ active_flags d = [] /\
    active_flags_str d = "nenhuma flag ativa"%string.
Proof. eexists. split; [vm_compute; reflexivity|]. repeat split. Qed.

(** Every value of the flags byte reaches the decoder's output. *)
Lemma every_flags_byte_decodes (now : string) (b : byte) :
  exists d,
    _interpret_q_response now (repeat x00 15 ++ [b; x0d]) = Decoded d /\
    extra_flags_raw d = byte_val b.
Proof.
  unfold _interpret_q_response.
  change ((len (repeat x00 15 ++ [b; x0d]) =? 0)
          || (len (repeat x00 15 ++ [b; x0d]) <? 17)) with false.
  cbv iota.
  rewrite interpret_q_body_stripped by discriminate.
  change (repeat x00 15 ++ [b; x0d]) with ((repeat x00 15 ++ [b]) ++ [x0d]).
  unfold stripped. rewrite py_index_last.
  change (byte_val x0d =? 13) with true. cbv iota.
  rewrite py_slice_drop_last. cbn. eexists. split; reflexivity.
Qed.

(** C6 (as stated). With an all-zero flags byte the summary is not the
    string "no active flags", and the names produced for bits 7 and 0 are not
    "BatteryInUse" and "BeepOn". *)
Lemma flag_strings_not_as_claimed :
  (exists d,
     _interpret_q_response sample_time (repeat x00 16 ++ [x0d]) = Decoded d /\
     extra_flags_raw d = 0 /\
     active_flags_str d <> "no active flags"%string) /\
  (exists d,
     _interpret_q_response sample_time sample_q_response = Decoded d /\
     extra_flags_raw d = 0x81 /\
     active_flags d <> ["BatteryInUse"; "BeepOn"]%string).
Proof.
  split.
  - destruct zero_flags_response_decodes as (d & E & H0 & _ & Hs).
    exists d. repeat split; try assumption. rewrite Hs. discriminate.
  - eexists. split; [apply sample_response_value|].
    split; [reflexivity|]. discriminate.
Qed.

Lemma flags_bits_nonneg (bit : Z) (name : string) :
  In (bit, name) flags_bits -> 0 <= bit <= 7.
Proof.
  cbn. intros H.
  repeat (destruct H as [[= <- <-]|H]; [lia|]). contradiction.
Qed.

(** C6 (amended). In every decoded response the flags byte is byte 15,
    [active_flags] lists exactly the names of its set bits, bit 7 first,
    under bit7=BateriaEmUso, bit6=BateriaBaixa, bit5=ByPass, bit4=Boost,
    bit3=UpsOk, bit2=TesteAtivo, bit1=ShutdownAtivo, bit0=BeepLigado; every
    name produced belongs to a set bit; and an all-zero flags byte gives no
    name and the summary "nenhuma flag ativa". *)
Theorem decoded_flags_are_set_bits
        (now : string) (response : bytes) (d : QData) :
  _interpret_q_response now response = Decoded d ->
  (exists b, py_index (stripped response) 15 = Ok b /\
             extra_flags_raw d = byte_val b) /\
  active_flags d = names_of_set_bits (extra_flags_raw d) /\
  (forall name, In name (active_flags d) ->
     exists bit, In (bit, name) flags_bits /\
                 Z.testbit (extra_flags_raw d) bit = true) /\
  (extra_flags_raw d = 0 ->
   active_flags d = [] /\ active_flags_str d = "nenhuma flag ativa"%string).
Proof.
  intros E.
  destruct (interpret_q_flags now response d E) as (b & Eb & Hraw & Hon & Hstr).
  split; [now exists b|].
  rewrite Hstr, Hon, Hraw. split; [apply flags_on_set_bits|]. split.
  - intros name Hin. unfold flags_on in Hin.
    apply in_map_iff in Hin. destruct Hin as ([bit name'] & Hn & Hf).
    cbn in Hn. subst name'. apply filter_In in Hf. destruct Hf as [Hin Ht].
    exists bit. split; [exact Hin|].
    apply flags_bits_nonneg in Hin as Hbit.
    rewrite land_bit_test, negb_involutive in Ht by lia. exact Ht.
  - intros H0. rewrite H0. split; reflexivity.
Qed.

(** The example buffer, whose flags byte is 0x81. *)
Lemma decoded_flags_are_set_bits_witness :
  (exists b, py_index (stripped sample_q_response) 15 = Ok b /\ 0x81 = byte_val b) /\
  ["BateriaEmUso"; "BeepLigado"]%string = names_of_set_bits 0x81 /\
  (forall name, In name ["BateriaEmUso"; "BeepLigado"]%string ->
     exists bit, In (bit, name) flags_bits /\ Z.testbit 0x81 bit = true) /\
  (0x81 = 0 ->
   ["BateriaEmUso"; "BeepLigado"]%string = [] /\
   "BateriaEmUso, BeepLigado"%string = "nenhuma flag ativa"%string).
Proof.
  exact (decoded_flags_are_set_bits sample_time sample_q_response _
           (sample_response_value sample_time)).
Defined.

(** * Properties of the bridge *)

Ltac tidy_history := rewrite ?app_nil_r, <- ?app_assoc; cbn [app].

Ltac run_method :=
  unfold bind, ret, raise, lift, emit, log, sleep, get_session, ask,
    try_except, serial_write, serial_read, mqtt_subscribe, mqtt_publish.

Lemma simple_commands_outside (command_char : string) :
  ~ In command_char ["Q"; "I"; "F"]%string ->
  dict_get simple_commands_map command_char = None.
Proof.
  intros Hout. cbn.
  repeat match goal with
         | |- context [String.eqb ?a ?b] =>
             destruct (String.eqb_spec a b) as [->|_];
             [exfalso; apply Hout; cbn; tauto|]
         end.
  reflexivity.
Qed.

Lemma simple_commands_inside (command_char : string) :
  In command_char ["Q"; "I"; "F"]%string ->
  exists cmd_byte, dict_get simple_commands_map command_char = Some cmd_byte /\
                   is_byte cmd_byte.
Proof.
  cbn. intros [<-|[<-|[<-|[]]]]; eexists; (split; [reflexivity|]);
    unfold is_byte; lia.
Qed.

Lemma registry_entries_are_bytes (key : string) (cmd_byte p1 p2 p3 p4 : Z) :
  dict_get SMS_GAMER_COMMANDS_PARAMS key = Some (cmd_byte, p1, p2, p3, p4) ->
  is_byte cmd_byte /\ is_byte p1 /\ is_byte p2 /\ is_byte p3 /\ is_byte p4.
Proof.
  cbn. intros E.
  repeat match type of E with
         | context [String.eqb ?a ?b] =>
             destruct (String.eqb a b);
             [injection E as <- <- <- <- <-; unfold is_byte; lia|]
         end.
  discriminate.
Qed.

Lemma registry_frame (key : string) (cmd_byte p1 p2 p3 p4 : Z) :
  dict_get SMS_GAMER_COMMANDS_PARAMS key = Some (cmd_byte, p1, p2, p3, p4) ->
  exists frame, build_full_command cmd_byte p1 p2 p3 p4 = Ok frame /\
                List.length frame = 7%nat.
Proof.
  intros E.
  destruct (registry_entries_are_bytes _ _ _ _ _ _ E) as (H0 & H1 & H2 & H3 & H4).
  destruct (build_full_command_bytes _ _ _ _ _ H0 H1 H2 H3 H4)
    as (b0 & b1 & b2 & b3 & b4 & bc & -> & _).
  eexists. split; reflexivity.
Qed.

Lemma not_connected_iff (s : Session) :
  not_connected s = true <-> connected s = false \/ serial s = None.
Proof.
  unfold not_connected. destruct (connected s), (serial s); cbn;
    intuition congruence.
Qed.

(** The command sent without a transport: nothing but the return value. *)
Lemma send_simple_not_connected env h s (command_char : string) :
  In command_char ["Q"; "I"; "F"]%string ->
  not_connected s = true ->
  send_simple_command command_char env h s = (Ok None, s, []).
Proof.
  intros Hin Hnc.
  destruct (simple_commands_inside _ Hin) as (cmd_byte & E & Hb).
  assert (Hff : is_byte 0xFF) by (unfold is_byte; lia).
  destruct (build_full_command_bytes cmd_byte _ _ _ _ Hb Hff Hff Hff Hff)
    as (b0 & b1 & b2 & b3 & b4 & bc & Ef & _).
  unfold send_simple_command. rewrite E. run_method.
  rewrite Ef, Hnc. reflexivity.
Qed.

Lemma send_predefined_not_connected env h s (key : string) :
  dict_mem SMS_GAMER_COMMANDS_PARAMS key = true ->
  not_connected s = true ->
  send_predefined_command key env h s
  = (Ok None, s, [Log ERROR PredefinedNotConnected]).
Proof.
  unfold dict_mem. intros Hin Hnc.
  destruct (dict_get SMS_GAMER_COMMANDS_PARAMS key)
    as [[[[[cmd_byte p1] p2] p3] p4]|] eqn:E; [|discriminate].
  destruct (registry_frame _ _ _ _ _ _ E) as (frame & Ef & _).
  unfold send_predefined_command. rewrite E. run_method.
  rewrite Ef, Hnc. reflexivity.
Qed.

(** C9. [send_simple_command] raises [ValueError] for every command outside
    Q, I and F, in every session, connected or not, and touches nothing;
    [send_predefined_command] on an unknown key logs an error and returns
    [None]. *)
Theorem simple_command_outside_set_raises env h s (command_char key : string) :
  ~ In command_char ["Q"; "I"; "F"]%string ->
  dict_get SMS_GAMER_COMMANDS_PARAMS key = None ->
  send_simple_command command_char env h s
  = (Raise (ValueError ("Comando simples '" ++ command_char ++ "' n"
                        ++ a_tilde ++ "o suportado")), s, []) /\
  send_predefined_command key env h s
  = (Ok None, s, [Log ERROR (PredefinedNotFound key)]).
Proof.
  intros Hout Hkey. split.
  - unfold send_simple_command.
    now rewrite (simple_commands_outside _ Hout).
  - unfold send_predefined_command. now rewrite Hkey.
Qed.

(** The beep toggle is no simple command, and S is no registry key; the
    session has no serial port. *)
Lemma simple_command_outside_set_raises_witness :
  send_simple_command "M" (sample_env []) [] initial_session
  = (Raise (ValueError ("Comando simples '" ++ "M" ++ "' n"
                        ++ a_tilde ++ "o suportado")), initial_session, []) /\
  send_predefined_command "S" (sample_env []) [] initial_session
  = (Ok None, initial_session, [Log ERROR (PredefinedNotFound "S")]).
Proof.
  apply (simple_command_outside_set_raises (sample_env []) [] initial_session
           "M" "S").
  - cbn. intros [H|[H|[H|[]]]]; discriminate H.
  - reflexivity.
Defined.

(** C10. Without a transport (flag false or no serial object) a simple
    command and a registered predefined command return [None]; the session
    is unchanged and no serial call is made: the simple command leaves no
    event at all, the predefined one a single error record. *)
Theorem not_connected_sends_nothing env h s :
  connected s = false \/ serial s = None ->
  (forall command_char, In command_char ["Q"; "I"; "F"]%string ->
     send_simple_command command_char env h s = (Ok None, s, [])) /\
  (forall key, dict_mem SMS_GAMER_COMMANDS_PARAMS key = true ->
     send_predefined_command key env h s
     = (Ok None, s, [Log ERROR PredefinedNotConnected])).
Proof.
  intros Hnc. apply not_connected_iff in Hnc. split.
  - intros c Hin. now apply send_simple_not_connected.
  - intros key Hin. now apply send_predefined_not_connected.
Qed.

(** The status query and the shutdown command before [connect]. *)
Lemma not_connected_sends_nothing_witness :
  send_simple_command "Q" (sample_env [x01]) [] initial_session
  = (Ok None, initial_session, []) /\
  send_predefined_command "R" (sample_env [x01]) [] initial_session
  = (Ok None, initial_session, [Log ERROR PredefinedNotConnected]).
Proof.
  destruct (not_connected_sends_nothing (sample_env [x01]) [] initial_session)
    as [Hsimple Hpre]; [left; reflexivity|].
  split.
  - apply Hsimple. cbn. tauto.
  - apply Hpre. reflexivity.
Defined.

(** *** Connecting to the broker *)

Lemma distinct_NoDup (l : list string) : distinct l = true -> NoDup l.
Proof.
  induction l as [|x rest IH]; cbn; intros H; constructor.
  - apply andb_true_iff in H. destruct H as [Hx _].
    intros Hin. apply negb_true_iff in Hx.
    assert (existsb (String.eqb x) rest = true) as Hex; [|congruence].
    apply existsb_exists. exists x. split; [exact Hin|apply String.eqb_refl].
  - apply IH. apply andb_true_iff in H. tauto.
Qed.

(** [connect_mqtt] stores the client it configures in [self.mqtt_client],
    whether or not the broker can be reached, so the client that later
    delivers a connect event is the session's own. *)
Lemma connect_mqtt_stores_client env h s (new_client : ClientId) :
  exists ok evs,
    connect_mqtt new_client env h s
    = (Ok ok,
       {| connected := connected s; serial := serial s;
          mqtt_client := Some new_client |},
       evs).
Proof.
  unfold connect_mqtt, set_mqtt_client. run_method.
  destruct (mqtt_connect_raises env _); cbn; eexists; eexists; reflexivity.
Qed.

(** A refused connection only leaves an error record. *)
Lemma connect_handler_failure env h s (client : ClientId) (rc : Z) :
  rc <> 0 ->
  _on_mqtt_connect client rc env h s
  = (Ok tt, s, [Log ERROR (MqttConnectFailed rc)]).
Proof.
  intros Hrc. unfold _on_mqtt_connect.
  destruct (Z.eqb_spec rc 0); [contradiction|reflexivity].
Qed.

(** C7. On a successful connect event delivered by the session's client the
    handler returns normally, leaves the session as it was, and its calls on
    the client are, in this order and once each: the subscription to the
    command topic, the empty retained publication on the command topic, and
    one retained QoS-1 publication per entry of the discovery set, the
    twenty topics being pairwise different and different from the command
    topic. *)
Theorem connect_handler_sequence env h s (client : ClientId) :
  mqtt_client s = Some client ->
  exists evs discovery,
    _on_mqtt_connect client 0 env h s = (Ok tt, s, evs) /\
    filter is_mqtt_call evs
    = MqttSubscribe client command_topic
        :: MqttPublish client command_topic PNone 1 true
        :: discovery /\
    Forall2 (retained_config client) discovery discovery_topics /\
    NoDup discovery_topics /\
    ~ In command_topic discovery_topics.
Proof.
  intros Hclient. destruct s as [c se m]. cbn in Hclient. subst m.
  eexists. eexists. split; [vm_compute; reflexivity|].
  split; [vm_compute; reflexivity|].
  split; [|split].
  - repeat (constructor; [eexists; reflexivity|]). constructor.
  - apply distinct_NoDup. vm_compute. reflexivity.
  - intros Hin. cbn in Hin.
    repeat (destruct Hin as [Hin|Hin]; [discriminate Hin|]). exact Hin.
Qed.

(** A connect event in a bridging session. *)
Lemma connect_handler_sequence_witness :
  exists evs discovery,
    _on_mqtt_connect 1%nat 0 (sample_env []) [] bridging_session
    = (Ok tt, bridging_session, evs) /\
    filter is_mqtt_call evs
    = MqttSubscribe 1%nat command_topic
        :: MqttPublish 1%nat command_topic PNone 1 true
        :: discovery /\
    Forall2 (retained_config 1%nat) discovery discovery_topics /\
    NoDup discovery_topics /\
    ~ In command_topic discovery_topics.
Proof.
  apply (connect_handler_sequence (sample_env []) [] bridging_session 1%nat).
  reflexivity.
Defined.

(** *** Inbound commands *)

Lemma registry_key_nonempty (key : string) :
  dict_mem SMS_GAMER_COMMANDS_PARAMS key = true ->
  truthy (JStr key) = true.
Proof.
  intros Hin. cbn. destruct (String.eqb_spec key EmptyString) as [->|_];
    [discriminate Hin|reflexivity].
Qed.

(** A payload that is not JSON. *)
Lemma on_message_not_json env h s (msg : MQTTMessage) (text : string) :
  bytes_decode env (payload msg) = Ok text ->
  json_loads env text = Raise JSONDecodeError ->
  _on_mqtt_message msg env h s
  = (Ok tt, s, [Log INFO (MqttMessageReceived (topic msg) text);
                Log ERROR (MqttJSONDecodeError text)]).
Proof.
  intros Hdec Hloads. unfold _on_mqtt_message. run_method.
  rewrite Hdec. cbn [rbind]. rewrite Hloads. reflexivity.
Qed.

(** JSON that carries no "command": a dictionary without the key, or a
    value that is no dictionary at all. *)
Lemma on_message_no_command env h s (msg : MQTTMessage) (text : string)
      (v : json) :
  bytes_decode env (payload msg) = Ok text ->
  json_loads env text = Ok v ->
  (forall d, v = JObj d -> dict_get d "command" = None) ->
  _on_mqtt_message msg env h s
  = (Ok tt, s, [Log INFO (MqttMessageReceived (topic msg) text);
                match v with
                | JObj _ => Log WARNING MqttNoCommandKey
                | _ => Log ERROR (MqttProcessingError AttributeError)
                end]).
Proof.
  intros Hdec Hloads Hkey. unfold _on_mqtt_message. run_method.
  rewrite Hdec. cbn [rbind]. rewrite Hloads.
  destruct v; try reflexivity.
  unfold json_get. now rewrite (Hkey d eq_refl).
Qed.

(** A "command" value that is no key of the registry. *)
Lemma on_message_unregistered env h s (msg : MQTTMessage) (text : string)
      (d : list (string * json)) (k : json) :
  bytes_decode env (payload msg) = Ok text ->
  json_loads env text = Ok (JObj d) ->
  dict_get d "command" = Some k ->
  (forall key, k = JStr key -> dict_mem SMS_GAMER_COMMANDS_PARAMS key = false) ->
  exists level record,
    _on_mqtt_message msg env h s
    = (Ok tt, s, [Log INFO (MqttMessageReceived (topic msg) text);
                  Log level record]) /\
    (forall key, k = JStr key -> key <> EmptyString ->
       level = WARNING /\ record = MqttCommandNotRecognized k).
Proof.
  intros Hdec Hloads Hget Hout. unfold _on_mqtt_message. run_method.
  rewrite Hdec. cbn [rbind]. rewrite Hloads. unfold json_get. rewrite Hget.
  destruct (truthy k) eqn:Ht.
  - destruct k as [| b | n | q | key | l | d']; cbn [registry_lookup];
      rewrite ?(Hout _ eq_refl);
      (eexists; eexists; split; [reflexivity|]);
      intros key' [= <-] _; split; reflexivity.
  - eexists. eexists. split; [reflexivity|].
    intros key -> Hne. cbn in Ht.
    destruct (String.eqb_spec key EmptyString); [contradiction|discriminate].
Qed.

(** A registered "command": the whole trace. *)
Lemma on_message_registered env h s (msg : MQTTMessage) (text : string)
      (d : list (string * json)) (key : string) :
  bytes_decode env (payload msg) = Ok text ->
  json_loads env text = Ok (JObj d) ->
  dict_get d "command" = Some (JStr key) ->
  dict_mem SMS_GAMER_COMMANDS_PARAMS key = true ->
  exists cmd_byte p1 p2 p3 p4 frame,
    dict_get SMS_GAMER_COMMANDS_PARAMS key = Some (cmd_byte, p1, p2, p3, p4) /\
    build_full_command cmd_byte p1 p2 p3 p4 = Ok frame /\
    let received := Log INFO (MqttMessageReceived (topic msg) text) in
    let sending := Log INFO (PredefinedSending key (hex frame)) in
    _on_mqtt_message msg env h s
    = (Ok tt, s,
       received ::
       (if not_connected s
        then [Log ERROR PredefinedNotConnected]
        else
          sending :: SerialWrite frame ::
          match serial_write_raises env (h ++ [received; sending]) frame with
          | Some e => [Log ERROR (PredefinedError key e)]
          | None =>
              Sleep 1 :: SerialRead 64 ::
              match serial_read_result env
                      (h ++ [received; sending; SerialWrite frame; Sleep 1]) 64
              with
              | Ok response =>
                  if nonempty response
                  then [Log INFO (PredefinedResponse (len response)
                                                     (hex response))]
                  else [Log WARNING (PredefinedNoResponse key)]
              | Raise e => [Log ERROR (PredefinedError key e)]
              end
          end)
       ++ [Log INFO (MqttCommandSent key)]).
Proof.
  intros Hdec Hloads Hget Hreg.
  pose proof (registry_key_nonempty _ Hreg) as Htruthy.
  pose proof Hreg as Hmem. unfold dict_mem in Hmem.
  destruct (dict_get SMS_GAMER_COMMANDS_PARAMS key)
    as [[[[[cmd_byte p1] p2] p3] p4]|] eqn:E; [|discriminate].
  destruct (registry_frame _ _ _ _ _ _ E) as (frame & Ef & _).
  exists cmd_byte, p1, p2, p3, p4, frame.
  split; [reflexivity|]. split; [exact Ef|].
  cbv zeta. unfold _on_mqtt_message. run_method.
  rewrite Hdec. cbn [rbind]. rewrite Hloads.
  unfold json_get. rewrite Hget, Htruthy.
  unfold registry_lookup. rewrite Hreg.
  unfold send_predefined_command. rewrite E. run_method. rewrite Ef.
  cbn [app]. tidy_history.
  destruct (not_connected s) eqn:Hnc; [reflexivity|].
  cbn. tidy_history.
  destruct (serial_write_raises env _ frame); [reflexivity|].
  cbn. tidy_history.
  destruct (serial_read_result env _ 64) as [response|e]; [|reflexivity].
  destruct (nonempty response); reflexivity.
Qed.

(** A payload that does not decode makes the handler raise before it logs
    anything. *)
Lemma on_message_undecodable env h s (msg : MQTTMessage) (e : Exn) :
  bytes_decode env (payload msg) = Raise e ->
  _on_mqtt_message msg env h s = (Raise e, s, []).
Proof.
  intros Hdec. unfold _on_mqtt_message. run_method. now rewrite Hdec.
Qed.

(** C8 (as stated). A registered command that arrives while the serial port
    is not connected is answered without any call on the serial line; a
    registered command whose write raises is followed by no delay and no
    read; a payload that is no text at all is not logged by the handler,
    which raises. *)
Lemma registered_command_without_transport :
  dict_mem SMS_GAMER_COMMANDS_PARAMS "M" = true /\
  _on_mqtt_message (command_message (command_json_text "M"))
                   (sample_env [x01]) [] closing_session
  = (Ok tt, closing_session,
     [Log INFO (MqttMessageReceived command_topic (command_json_text "M"));
      Log ERROR PredefinedNotConnected;
      Log INFO (MqttCommandSent "M")]) /\
  _on_mqtt_message (command_message (command_json_text "M"))
                   failing_line_env [] bridging_session
  = (Ok tt, bridging_session,
     [Log INFO (MqttMessageReceived command_topic (command_json_text "M"));
      Log INFO (PredefinedSending "M" "4dffffffffb70d");
      SerialWrite [x4d; xff; xff; xff; xff; xb7; x0d];
      Log ERROR (PredefinedError "M" SerialException);
      Log INFO (MqttCommandSent "M")]) /\
  _on_mqtt_message {| topic := command_topic; payload := [xff] |}
                   (sample_env [x01]) [] bridging_session
  = (Raise UnicodeDecodeError, bridging_session, []).
Proof.
  repeat split; vm_compute; reflexivity.
Qed.

(** C8 (amended). For an inbound message whose payload reads as [text]:
    text that is not JSON, JSON without a "command", and a "command" that is
    no registry key each leave the session unchanged and produce log records
    only; a registry key has its frame built and, when the transport is
    connected, the frame is written and, unless the write raises, the
    handler sleeps one second and reads up to 64 bytes, the response is
    logged, and no MQTT call is made; when the transport is not connected
    the registered command only leaves log records. *)
Theorem mqtt_command_dispatch env h s (msg : MQTTMessage) (text : string) :
  bytes_decode env (payload msg) = Ok text ->
  let received := Log INFO (MqttMessageReceived (topic msg) text) in
  (json_loads env text = Raise JSONDecodeError ->
   _on_mqtt_message msg env h s
   = (Ok tt, s, [received; Log ERROR (MqttJSONDecodeError text)])) /\
  (forall v,
     json_loads env text = Ok v ->
     (forall d, v = JObj d -> dict_get d "command" = None) ->
     exists level record,
       _on_mqtt_message msg env h s
       = (Ok tt, s, [received; Log level record])) /\
  (forall d k,
     json_loads env text = Ok (JObj d) ->
     dict_get d "command" = Some k ->
     (forall key, k = JStr key ->
                  dict_mem SMS_GAMER_COMMANDS_PARAMS key = false) ->
     exists level record,
       _on_mqtt_message msg env h s
       = (Ok tt, s, [received; Log level record])) /\
  (forall d key,
     json_loads env text = Ok (JObj d) ->
     dict_get d "command" = Some (JStr key) ->
     dict_mem SMS_GAMER_COMMANDS_PARAMS key = true ->
     exists cmd_byte p1 p2 p3 p4 frame,
       dict_get SMS_GAMER_COMMANDS_PARAMS key
       = Some (cmd_byte, p1, p2, p3, p4) /\
       build_full_command cmd_byte p1 p2 p3 p4 = Ok frame /\
       let sending := Log INFO (PredefinedSending key (hex frame)) in
       _on_mqtt_message msg env h s
       = (Ok tt, s,
          received ::
          (if not_connected s
           then [Log ERROR PredefinedNotConnected]
           else
             sending :: SerialWrite frame ::
             match serial_write_raises env (h ++ [received; sending]) frame
             with
             | Some e => [Log ERROR (PredefinedError key e)]
             | None =>
                 Sleep 1 :: SerialRead 64 ::
                 match serial_read_result env
                         (h ++ [received; sending; SerialWrite frame; Sleep 1])
                         64
                 with
                 | Ok response =>
                     if nonempty response
                     then [Log INFO (PredefinedResponse (len response)
                                                        (hex response))]
                     else [Log WARNING (PredefinedNoResponse key)]
                 | Raise e => [Log ERROR (PredefinedError key e)]
                 end
             end)
          ++ [Log INFO (MqttCommandSent key)])).
Proof.
  intros Hdec received. subst received. repeat split.
  - now apply on_message_not_json.
  - intros v Hloads Hkey.
    rewrite (on_message_no_command env h s msg text v Hdec Hloads Hkey).
    destruct v; eexists; eexists; reflexivity.
  - intros d k Hloads Hget Hout.
    destruct (on_message_unregistered env h s msg text d k Hdec Hloads Hget Hout)
      as (level & record & E & _).
    now exists level, record.
  - intros d key Hloads Hget Hreg.
    now apply (on_message_registered env h s msg text d key).
Qed.

(** The 100-second battery test requested over MQTT, the UPS answering
    two bytes. *)
Lemma mqtt_command_dispatch_witness :
  _on_mqtt_message (command_message (command_json_text "T1"))
                   (sample_env [x01; x02]) [] bridging_session
  = (Ok tt, bridging_session,
     [Log INFO (MqttMessageReceived command_topic (command_json_text "T1"));
      Log INFO (PredefinedSending "T1" "5400640000480d");
      SerialWrite [x54; x00; x64; x00; x00; x48; x0d];
      Sleep 1;
      SerialRead 64;
      Log INFO (PredefinedResponse 2 "0102");
      Log INFO (MqttCommandSent "T1")]).
Proof.
  destruct (mqtt_command_dispatch (sample_env [x01; x02]) [] bridging_session
              (command_message (command_json_text "T1"))
              (command_json_text "T1") eq_refl)
    as (_ & _ & _ & Hreg).
  destruct (Hreg [("command"%string, JStr "T1")] "T1"%string
              eq_refl eq_refl eq_refl)
    as (cmd_byte & p1 & p2 & p3 & p4 & frame & Eparams & Eframe & Erun).
  injection Eparams as <- <- <- <- <-.
  vm_compute in Eframe. injection Eframe as <-.
  exact Erun.
Defined.

(** * Further properties of the codec *)

Lemma py_slice_app_l {A} (p t : list A) (lo hi : Z) :
  0 <= lo -> lo <= hi -> hi <= len p ->
  py_slice (p ++ t) lo hi = py_slice p lo hi.
Proof.
  intros Hlo Hhi Hlen. unfold py_slice, slice_bound, len in *.
  rewrite length_app.
  destruct (Z.ltb_spec lo 0); [lia|].
  destruct (Z.ltb_spec hi 0); [lia|].
  replace (Z.min lo (Z.of_nat (List.length p + List.length t))) with lo by lia.
  replace (Z.min hi (Z.of_nat (List.length p + List.length t))) with hi by lia.
  replace (Z.min lo (Z.of_nat (List.length p))) with lo by lia.
  replace (Z.min hi (Z.of_nat (List.length p))) with hi by lia.
  rewrite skipn_app, firstn_app, length_skipn.
  replace (Z.to_nat lo - List.length p)%nat with 0%nat by lia.
  replace (Z.to_nat (hi - lo) - (List.length p - Z.to_nat lo))%nat
    with 0%nat by lia.
  cbn. apply app_nil_r.
Qed.

Lemma py_index_app_l {A} (p t : list A) (i : nat) (x : A) :
  nth_error p i = Some x -> py_index (p ++ t) (Z.of_nat i) = Ok x.
Proof.
  intros Hnth. unfold py_index, len.
  assert (i < List.length p)%nat by (apply nth_error_Some; congruence).
  rewrite length_app.
  destruct (Z.ltb_spec (Z.of_nat i) 0); [lia|].
  destruct (Z.ltb_spec (Z.of_nat i) 0); [lia|].
  destruct (Z.leb_spec (Z.of_nat (List.length p + List.length t))
                       (Z.of_nat i)); [lia|].
  cbn [orb]. rewrite Nat2Z.id, nth_error_app1, Hnth by assumption.
  reflexivity.
Qed.

(** Dropping the terminator only shortens what follows the first bytes. *)
Lemma stripped_app (p tail : bytes) :
  tail <> [] -> exists tail', stripped (p ++ tail) = p ++ tail'.
Proof.
  intros Hne. destruct tail as [|x t _] using rev_ind; [congruence|].
  rewrite app_assoc. unfold stripped. rewrite py_index_last.
  destruct (byte_val x =? 13).
  - exists t. apply py_slice_drop_last.
  - exists (t ++ [x]). now rewrite app_assoc.
Qed.

Lemma be_value_2 (b0 b1 : byte) : be_value [b0; b1] = u16 b0 b1.
Proof. unfold be_value, u16. cbn [fold_left]. lia. Qed.

Lemma be_value_4 (b0 b1 b2 b3 : byte) :
  be_value [b0; b1; b2; b3] = u32 b0 b1 b2 b3.
Proof. unfold be_value, u32. cbn [fold_left]. lia. Qed.

Lemma div10_tenths (raw : Z) : (div10 raw == raw # 10)%Q.
Proof. unfold div10, Qdiv, Qeq. cbn. lia. Qed.

Lemma decoded_value (raw : Z) : (round1 (div10 raw) == raw # 10)%Q.
Proof. now rewrite round1_div10, div10_tenths. Qed.

(** X1. The fixed layout: for 16 bytes followed by anything non-empty, the
    decoder returns the big-endian fields at offsets 1..4, 5..6, 7..8,
    9..10, 11..12 and 13..14, each divided by ten, and byte 15 as the flags;
    byte 0 and everything after byte 15 have no influence on them. *)
Theorem decode_field_layout (now : string) (p tail : bytes) :
  List.length p = 16%nat -> tail <> [] ->
  exists d,
    _interpret_q_response now (p ++ tail) = Decoded d /\
    (vin d == u32 (byte_at p 1) (byte_at p 2) (byte_at p 3) (byte_at p 4)
              # 10)%Q /\
    (vout d == u16 (byte_at p 5) (byte_at p 6) # 10)%Q /\
    (load_percent d == u16 (byte_at p 7) (byte_at p 8) # 10)%Q /\
    (frequency d == u16 (byte_at p 9) (byte_at p 10) # 10)%Q /\
    (battery_percent d == u16 (byte_at p 11) (byte_at p 12) # 10)%Q /\
    (temperature d == u16 (byte_at p 13) (byte_at p 14) # 10)%Q /\
    extra_flags_raw d = byte_val (byte_at p 15) /\
    timestamp d = now.
Proof.
  intros Hp Htail.
  do 16 (destruct p as [|? p]; [discriminate Hp|]).
  destruct p; [|discriminate Hp]. clear Hp.
  unfold _interpret_q_response.
  assert (G : (len ([b; b0; b1; b2; b3; b4; b5; b6; b7; b8; b9; b10; b11;
                     b12; b13; b14] ++ tail) =? 0)
              || (len ([b; b0; b1; b2; b3; b4; b5; b6; b7; b8; b9; b10; b11;
                        b12; b13; b14] ++ tail) <? 17) = false).
  { destruct tail; [congruence|]. unfold len. rewrite length_app.
    cbn [List.length].
    apply orb_false_iff. split; [apply Z.eqb_neq|apply Z.ltb_ge]; lia. }
  rewrite G.
  rewrite interpret_q_body_stripped by (cbn; discriminate).
  destruct (stripped_app [b; b0; b1; b2; b3; b4; b5; b6; b7; b8; b9; b10;
                          b11; b12; b13; b14] tail Htail) as [tail' ->].
  cbv zeta.
  rewrite (py_slice_app_l _ tail' 1 5), (py_slice_app_l _ tail' 5 7),
    (py_slice_app_l _ tail' 7 9), (py_slice_app_l _ tail' 9 11),
    (py_slice_app_l _ tail' 11 13), (py_slice_app_l _ tail' 13 15)
    by (unfold len; cbn [List.length]; lia).
  rewrite (py_index_app_l _ tail' 15 b14) by reflexivity.
  change (py_slice [b; b0; b1; b2; b3; b4; b5; b6; b7; b8; b9; b10; b11;
                    b12; b13; b14] 1 5) with [b0; b1; b2; b3].
  change (py_slice [b; b0; b1; b2; b3; b4; b5; b6; b7; b8; b9; b10; b11;
                    b12; b13; b14] 5 7) with [b4; b5].
  change (py_slice [b; b0; b1; b2; b3; b4; b5; b6; b7; b8; b9; b10; b11;
                    b12; b13; b14] 7 9) with [b6; b7].
  change (py_slice [b; b0; b1; b2; b3; b4; b5; b6; b7; b8; b9; b10; b11;
                    b12; b13; b14] 9 11) with [b8; b9].
  change (py_slice [b; b0; b1; b2; b3; b4; b5; b6; b7; b8; b9; b10; b11;
                    b12; b13; b14] 11 13) with [b10; b11].
  change (py_slice [b; b0; b1; b2; b3; b4; b5; b6; b7; b8; b9; b10; b11;
                    b12; b13; b14] 13 15) with [b12; b13].
  cbn [struct_unpack_be List.length Nat.eqb rbind].
  eexists. split; [reflexivity|].
  cbn [vin vout load_percent frequency battery_percent temperature
       extra_flags_raw timestamp byte_at nth].
  rewrite be_value_4, !be_value_2, !decoded_value.
  repeat split; reflexivity.
Qed.

(** The example buffer, read field by field. *)
Lemma decode_field_layout_witness :
  exists d,
    _interpret_q_response sample_time (sample_q_payload ++ [x0d]) = Decoded d /\
    (vin d == u32 x00 x00 x09 x60 # 10)%Q /\
    (vout d == u16 x00 xe6 # 10)%Q /\
    (load_percent d == u16 x00 x00 # 10)%Q /\
    (frequency d == u16 x02 x58 # 10)%Q /\
    (battery_percent d == u16 x03 x84 # 10)%Q /\
    (temperature d == u16 x01 xf4 # 10)%Q /\
    extra_flags_raw d = byte_val x81 /\
    timestamp d = sample_time.
Proof.
  apply (decode_field_layout sample_time sample_q_payload [x0d]);
    [reflexivity|discriminate].
Defined.

Lemma be_value_acc_bound (bs : bytes) (acc : Z) :
  0 <= acc ->
  0 <= fold_left (fun a b => a * 256 + byte_val b) bs acc
    < (acc + 1) * 256 ^ Z.of_nat (List.length bs).
Proof.
  revert acc. induction bs as [|b bs IH]; intros acc Hacc.
  - cbn. lia.
  - cbn [fold_left List.length]. rewrite Nat2Z.inj_succ, Z.pow_succ_r by lia.
    assert (0 <= byte_val b <= 255) as Hb
      by (unfold byte_val; pose proof (Byte.to_N_bounded b); lia).
    specialize (IH (acc * 256 + byte_val b) ltac:(lia)).
    assert (0 < 256 ^ Z.of_nat (List.length bs)) by (apply Z.pow_pos_nonneg; lia).
    nia.
Qed.

Lemma struct_unpack_be_range (size : nat) (bs : bytes) (raw : Z) :
  struct_unpack_be size bs = Ok raw -> 0 <= raw < 256 ^ Z.of_nat size.
Proof.
  unfold struct_unpack_be.
  destruct (Nat.eqb_spec (List.length bs) size) as [<-|_]; [|discriminate].
  intros [= <-]. pose proof (be_value_acc_bound bs 0 ltac:(lia)) as H.
  unfold be_value. lia.
Qed.

(** Every field of a decoded response, in terms of the stripped buffer. *)
Lemma interpret_q_decoded (now : string) (response : bytes) (d : QData) :
  _interpret_q_response now response = Decoded d ->
  exists vin_raw vout_raw power_raw freq_raw batt_raw temp_raw extra_b,
    d = {| vin := round1 (div10 vin_raw);
           vout := round1 (div10 vout_raw);
           load_percent := round1 (div10 power_raw);
           frequency := round1 (div10 freq_raw);
           battery_percent := round1 (div10 batt_raw);
           temperature := round1 (div10 temp_raw);
           extra_flags_raw := byte_val extra_b;
           extra_flags_binary := format_08b (byte_val extra_b);
           active_flags := flags_on (byte_val extra_b);
           active_flags_str := summary_of extra_b;
           raw_response_hex := hex (stripped response);
           timestamp := now |} /\
    0 <= vin_raw < 256 ^ 4 /\ 0 <= vout_raw < 256 ^ 2 /\
    0 <= power_raw < 256 ^ 2 /\ 0 <= freq_raw < 256 ^ 2 /\
    0 <= batt_raw < 256 ^ 2 /\ 0 <= temp_raw < 256 ^ 2.
Proof.
  unfold _interpret_q_response.
  destruct ((len response =? 0) || (len response <? 17)) eqn:G; [discriminate|].
  assert (Hne : response <> []).
  { intros ->. cbn in G. discriminate. }
  rewrite interpret_q_body_stripped by assumption. cbv zeta.
  destruct (struct_unpack_be 4 (py_slice (stripped response) 1 5))
    as [v|] eqn:Ev; cbn [rbind]; [|intros [=]].
  destruct (struct_unpack_be 2 (py_slice (stripped response) 5 7))
    as [o|] eqn:Eo; cbn [rbind]; [|intros [=]].
  destruct (struct_unpack_be 2 (py_slice (stripped response) 7 9))
    as [p|] eqn:Ep; cbn [rbind]; [|intros [=]].
  destruct (struct_unpack_be 2 (py_slice (stripped response) 9 11))
    as [f|] eqn:Ef; cbn [rbind]; [|intros [=]].
  destruct (struct_unpack_be 2 (py_slice (stripped response) 11 13))
    as [bt|] eqn:Ebt; cbn [rbind]; [|intros [=]].
  destruct (struct_unpack_be 2 (py_slice (stripped response) 13 15))
    as [t|] eqn:Et; cbn [rbind]; [|intros [=]].
  destruct (py_index _ 15) as [b|]; cbn [rbind]; [|intros [=]].
  intros [= <-]. exists v, o, p, f, bt, t, b.
  split; [reflexivity|].
  apply struct_unpack_be_range in Ev, Eo, Ep, Ef, Ebt, Et.
  change (Z.of_nat 4) with 4 in Ev. change (Z.of_nat 2) with 2 in *.
  repeat split; lia.
Qed.

Lemma decoded_value_range (raw bound : Z) :
  0 <= raw < bound + 1 ->
  (0 <= round1 (div10 raw) /\ round1 (div10 raw) <= bound # 10)%Q.
Proof.
  intros H. rewrite decoded_value. unfold Qle. cbn. lia.
Qed.

(** X2. Every decoded value lies in the range its field width allows:
    vin between 0 and 429496729.5, the five 16-bit fields between 0 and
    6553.5, the flags between 0 and 255. *)
Theorem decoded_values_in_range
        (now : string) (response : bytes) (d : QData) :
  _interpret_q_response now response = Decoded d ->
  (0 <= vin d /\ vin d <= 4294967295 # 10)%Q /\
  (0 <= vout d /\ vout d <= 65535 # 10)%Q /\
  (0 <= load_percent d /\ load_percent d <= 65535 # 10)%Q /\
  (0 <= frequency d /\ frequency d <= 65535 # 10)%Q /\
  (0 <= battery_percent d /\ battery_percent d <= 65535 # 10)%Q /\
  (0 <= temperature d /\ temperature d <= 65535 # 10)%Q /\
  0 <= extra_flags_raw d <= 255.
Proof.
  intros E.
  destruct (interpret_q_decoded now response d E)
    as (v & o & p & f & bt & t & b & -> & Hv & Ho & Hp & Hf & Hbt & Ht).
  cbn [vin vout load_percent frequency battery_percent temperature
       extra_flags_raw].
  change (256 ^ 4) with (4294967295 + 1) in Hv.
  change (256 ^ 2) with (65535 + 1) in *.
  repeat (split; [now apply decoded_value_range|]).
  unfold byte_val. pose proof (Byte.to_N_bounded b). lia.
Qed.

(** The example buffer. *)
Lemma decoded_values_in_range_witness :
  (0 <= 240 /\ 240 <= 4294967295 # 10)%Q /\
  (0 <= 23 /\ 23 <= 65535 # 10)%Q /\
  (0 <= 0 /\ 0 <= 65535 # 10)%Q /\
  (0 <= 60 /\ 60 <= 65535 # 10)%Q /\
  (0 <= 90 /\ 90 <= 65535 # 10)%Q /\
  (0 <= 50 /\ 50 <= 65535 # 10)%Q /\
  0 <= 0x81 <= 255.
Proof.
  exact (decoded_values_in_range sample_time sample_q_response _
           (sample_response_value sample_time)).
Defined.

(** *** The flags byte in its three renderings *)

Lemma format_08b_byte (b : byte) : format_08b (byte_val b) = bits8 (byte_val b).
Proof. destruct b; vm_compute; reflexivity. Qed.

Lemma ones_are_active_flags (b : byte) :
  count_char "1" (bits8 (byte_val b)) = List.length (flags_on (byte_val b)).
Proof. destruct b; vm_compute; reflexivity. Qed.

(** X3. In a decoded response the binary rendering of the flags is the
    eight binary digits of the flags byte, bit 7 first, and it has as many
    ones as there are active flags. *)
Theorem flags_binary_matches_flags
        (now : string) (response : bytes) (d : QData) :
  _interpret_q_response now response = Decoded d ->
  extra_flags_binary d = bits8 (extra_flags_raw d) /\
  String.length (extra_flags_binary d) = 8%nat /\
  count_char "1" (extra_flags_binary d) = List.length (active_flags d).
Proof.
  intros E.
  destruct (interpret_q_decoded now response d E)
    as (v & o & p & f & bt & t & b & -> & _).
  cbn [extra_flags_binary extra_flags_raw active_flags].
  rewrite format_08b_byte. split; [reflexivity|]. split.
  - unfold bits8. cbv zeta. reflexivity.
  - apply ones_are_active_flags.
Qed.

(** The example buffer: 10000001 and two flags. *)
Lemma flags_binary_matches_flags_witness :
  "10000001"%string = bits8 0x81 /\
  String.length "10000001" = 8%nat /\
  count_char "1" "10000001" = 2%nat.
Proof.
  exact (flags_binary_matches_flags sample_time sample_q_response _
           (sample_response_value sample_time)).
Defined.

Lemma in_all_bytes (b : byte) : In b all_bytes.
Proof.
  assert (existsb (Byte.eqb b) all_bytes = true) as H
    by (destruct b; vm_compute; reflexivity).
  apply existsb_exists in H. destruct H as (b' & Hin & Heq).
  apply Byte.byte_dec_bl in Heq. now subst.
Qed.

Lemma distinct_map_injective {A} (f : A -> string) (l : list A) (x y : A) :
  distinct (map f l) = true -> In x l -> In y l -> f x = f y -> x = y.
Proof.
  induction l as [|a l IH]; cbn [map distinct]; [contradiction|].
  intros Hd Hx Hy Hf. apply andb_true_iff in Hd. destruct Hd as [Ha Hl].
  apply negb_true_iff in Ha.
  assert (forall z, In z l -> f a <> f z) as Hfresh.
  { intros z Hz Heq.
    assert (existsb (String.eqb (f a)) (map f l) = true) as Hex; [|congruence].
    apply existsb_exists. exists (f z). split; [now apply in_map|].
    now apply String.eqb_eq. }
  destruct Hx as [<-|Hx], Hy as [<-|Hy]; auto.
  - exfalso. now apply (Hfresh y).
  - exfalso. now apply (Hfresh x).
Qed.

Lemma summary_injective (b1 b2 : byte) :
  summary_of b1 = summary_of b2 -> b1 = b2.
Proof.
  apply (distinct_map_injective summary_of all_bytes);
    [vm_compute; reflexivity | apply in_all_bytes | apply in_all_bytes].
Qed.

Lemma summary_empty_iff (b : byte) :
  summary_of b = "nenhuma flag ativa"%string <-> byte_val b = 0.
Proof.
  split.
  - intros H. change "nenhuma flag ativa"%string with (summary_of x00) in H.
    now rewrite (summary_injective _ _ H).
  - intros H. assert (b = x00) as ->; [|reflexivity].
    unfold byte_val in H.
    assert (Byte.to_N b = Byte.to_N x00) as Hn by (cbn; lia).
    pose proof (Byte.of_to_N b) as Hb. rewrite Hn in Hb.
    cbn in Hb. congruence.
Qed.

(** X4. The summary string identifies the flags: two decoded responses with
    the same summary have the same flags byte and the same list of active
    flags, and the summary is "nenhuma flag ativa" exactly when no bit of
    the flags byte is set; otherwise it is the names joined by ", ". *)
Theorem summary_identifies_flags
        (now1 now2 : string) (r1 r2 : bytes) (d1 d2 : QData) :
  _interpret_q_response now1 r1 = Decoded d1 ->
  _interpret_q_response now2 r2 = Decoded d2 ->
  (active_flags_str d1 = active_flags_str d2 ->
   extra_flags_raw d1 = extra_flags_raw d2 /\
   active_flags d1 = active_flags d2) /\
  (active_flags_str d1 = "nenhuma flag ativa"%string <->
   extra_flags_raw d1 = 0) /\
  (extra_flags_raw d1 <> 0 ->
   active_flags_str d1 = join ", " (active_flags d1)).
Proof.
  intros E1 E2.
  destruct (interpret_q_decoded now1 r1 d1 E1)
    as (v1 & o1 & p1 & f1 & bt1 & t1 & b1 & -> & _).
  destruct (interpret_q_decoded now2 r2 d2 E2)
    as (v2 & o2 & p2 & f2 & bt2 & t2 & b2 & -> & _).
  cbn [active_flags_str extra_flags_raw active_flags].
  split; [|split].
  - intros H. apply summary_injective in H. now subst.
  - apply summary_empty_iff.
  - intros Hne. unfold summary_of, flags_str.
    destruct (flags_on (byte_val b1)) eqn:Hon; [|reflexivity].
    exfalso. apply Hne. apply summary_empty_iff.
    unfold summary_of. now rewrite Hon.
Qed.

(** The example buffer against a buffer without flags. *)
Lemma summary_identifies_flags_witness :
  ("BateriaEmUso, BeepLigado"%string = "BateriaEmUso, BeepLigado"%string ->
   0x81 = 0x81 /\
   ["BateriaEmUso"; "BeepLigado"]%string
   = ["BateriaEmUso"; "BeepLigado"]%string) /\
  ("BateriaEmUso, BeepLigado"%string = "nenhuma flag ativa"%string <->
   0x81 = 0) /\
  (0x81 <> 0 ->
   "BateriaEmUso, BeepLigado"%string
   = join ", " ["BateriaEmUso"; "BeepLigado"]%string).
Proof.
  exact (summary_identifies_flags sample_time sample_time
           sample_q_response sample_q_response _ _
           (sample_response_value sample_time)
           (sample_response_value sample_time)).
Defined.

(** *** Frames *)

Lemma pack_B_raises (v : Z) : ~ is_byte v -> pack_B v = Raise StructError.
Proof.
  intros Hv. unfold pack_B.
  destruct (Z.leb_spec 0 v), (Z.leb_spec v 255); cbn [andb]; try reflexivity.
  exfalso. apply Hv. unfold is_byte. lia.
Qed.

Lemma is_byte_dec (v : Z) : {is_byte v} + {~ is_byte v}.
Proof.
  unfold is_byte.
  destruct (Z_le_dec 0 v), (Z_le_dec v 255); (left; lia) || (right; lia).
Qed.

(** X5. [build_full_command] raises [struct.error] exactly when one of its
    five arguments is not a byte; the checksum it computes never is the
    cause. *)
Theorem build_full_command_raises_iff (cmd_byte p1 p2 p3 p4 : Z) :
  build_full_command cmd_byte p1 p2 p3 p4 = Raise StructError <->
  ~ (is_byte cmd_byte /\ is_byte p1 /\ is_byte p2 /\ is_byte p3 /\ is_byte p4).
Proof.
  split.
  - intros Hraise (H0 & H1 & H2 & H3 & H4).
    destruct (build_full_command_bytes _ _ _ _ _ H0 H1 H2 H3 H4)
      as (b0 & b1 & b2 & b3 & b4 & bc & E & _).
    congruence.
  - intros Hnot. unfold build_full_command. cbn [struct_pack_B].
    destruct (is_byte_dec cmd_byte) as [H0|H0];
      [|now rewrite (pack_B_raises _ H0)].
    destruct (pack_B_ok _ H0) as (b0 & -> & _). cbn [rbind].
    destruct (is_byte_dec p1) as [H1|H1]; [|now rewrite (pack_B_raises _ H1)].
    destruct (pack_B_ok _ H1) as (b1 & -> & _). cbn [rbind].
    destruct (is_byte_dec p2) as [H2|H2]; [|now rewrite (pack_B_raises _ H2)].
    destruct (pack_B_ok _ H2) as (b2 & -> & _). cbn [rbind].
    destruct (is_byte_dec p3) as [H3|H3]; [|now rewrite (pack_B_raises _ H3)].
    destruct (pack_B_ok _ H3) as (b3 & -> & _). cbn [rbind].
    destruct (is_byte_dec p4) as [H4|H4]; [|now rewrite (pack_B_raises _ H4)].
    exfalso. apply Hnot. tauto.
Qed.

Lemma checksum_cancel (s x y : Z) :
  is_byte x -> is_byte y ->
  (- (s + x)) mod 256 = (- (s + y)) mod 256 -> x = y.
Proof.
  unfold is_byte. intros Hx Hy H.
  rewrite (Z.mod_eq (- (s + x)) 256), (Z.mod_eq (- (s + y)) 256) in H by lia.
  lia.
Qed.

(** X6. The checksum tells apart any two byte tuples that differ in a
    single position: if changing one argument, whichever it is, to another
    byte leaves the checksum the same, the argument was not changed. *)
Theorem checksum_detects_single_change (c p1 p2 p3 p4 x y : Z) :
  is_byte x -> is_byte y ->
  (calculate_checksum x p1 p2 p3 p4 = calculate_checksum y p1 p2 p3 p4 ->
   x = y) /\
  (calculate_checksum c x p2 p3 p4 = calculate_checksum c y p2 p3 p4 ->
   x = y) /\
  (calculate_checksum c p1 x p3 p4 = calculate_checksum c p1 y p3 p4 ->
   x = y) /\
  (calculate_checksum c p1 p2 x p4 = calculate_checksum c p1 p2 y p4 ->
   x = y) /\
  (calculate_checksum c p1 p2 p3 x = calculate_checksum c p1 p2 p3 y ->
   x = y).
Proof.
  intros Hx Hy. rewrite !calculate_checksum_mod.
  repeat split; intros H.
  - apply (checksum_cancel (p1 + p2 + p3 + p4) x y Hx Hy).
    now replace (p1 + p2 + p3 + p4 + x) with (x + p1 + p2 + p3 + p4) by lia;
      replace (p1 + p2 + p3 + p4 + y) with (y + p1 + p2 + p3 + p4) by lia.
  - apply (checksum_cancel (c + p2 + p3 + p4) x y Hx Hy).
    now replace (c + p2 + p3 + p4 + x) with (c + x + p2 + p3 + p4) by lia;
      replace (c + p2 + p3 + p4 + y) with (c + y + p2 + p3 + p4) by lia.
  - apply (checksum_cancel (c + p1 + p3 + p4) x y Hx Hy).
    now replace (c + p1 + p3 + p4 + x) with (c + p1 + x + p3 + p4) by lia;
      replace (c + p1 + p3 + p4 + y) with (c + p1 + y + p3 + p4) by lia.
  - apply (checksum_cancel (c + p1 + p2 + p4) x y Hx Hy).
    now replace (c + p1 + p2 + p4 + x) with (c + p1 + p2 + x + p4) by lia;
      replace (c + p1 + p2 + p4 + y) with (c + p1 + p2 + y + p4) by lia.
  - now apply (checksum_cancel (c + p1 + p2 + p3) x y Hx Hy).
Qed.

(** The test durations 100 and 200 seconds differ in one byte. *)
Lemma checksum_detects_single_change_witness :
  (calculate_checksum 0x64 0x00 0x64 0x00 0x00
   = calculate_checksum 0xC8 0x00 0x64 0x00 0x00 -> 0x64 = 0xC8) /\
  (calculate_checksum 0x54 0x64 0x64 0x00 0x00
   = calculate_checksum 0x54 0xC8 0x64 0x00 0x00 -> 0x64 = 0xC8) /\
  (calculate_checksum 0x54 0x00 0x64 0x00 0x00
   = calculate_checksum 0x54 0x00 0xC8 0x00 0x00 -> 0x64 = 0xC8) /\
  (calculate_checksum 0x54 0x00 0x64 0x64 0x00
   = calculate_checksum 0x54 0x00 0x64 0xC8 0x00 -> 0x64 = 0xC8) /\
  (calculate_checksum 0x54 0x00 0x64 0x00 0x64
   = calculate_checksum 0x54 0x00 0x64 0x00 0xC8 -> 0x64 = 0xC8).
Proof.
  apply (checksum_detects_single_change 0x54 0x00 0x64 0x00 0x00 0x64 0xC8);
    unfold is_byte; lia.
Defined.

(** * Further properties of the bridge *)

Lemma checksum_sum_zero (cmd_byte p1 p2 p3 p4 : Z) :
  (cmd_byte + p1 + p2 + p3 + p4 + calculate_checksum cmd_byte p1 p2 p3 p4)
    mod 256 = 0.
Proof.
  rewrite calculate_checksum_mod, Z.add_mod_idemp_r by lia.
  replace (cmd_byte + p1 + p2 + p3 + p4 + - (cmd_byte + p1 + p2 + p3 + p4))
    with 0 by lia.
  reflexivity.
Qed.

(** What [build_full_command] returns is a well-formed frame. *)
Lemma built_frame_valid (cmd_byte p1 p2 p3 p4 : Z) (frame : bytes) :
  build_full_command cmd_byte p1 p2 p3 p4 = Ok frame -> valid_frame frame.
Proof.
  intros E.
  destruct (is_byte_dec cmd_byte) as [H0|H0], (is_byte_dec p1) as [H1|H1],
    (is_byte_dec p2) as [H2|H2], (is_byte_dec p3) as [H3|H3],
    (is_byte_dec p4) as [H4|H4];
    try (assert (build_full_command cmd_byte p1 p2 p3 p4 = Raise StructError)
           by (apply build_full_command_raises_iff; tauto); congruence).
  destruct (build_full_command_bytes _ _ _ _ _ H0 H1 H2 H3 H4)
    as (b0 & b1 & b2 & b3 & b4 & bc & E' & V).
  rewrite E' in E. injection E as <-.
  exists b0, b1, b2, b3, b4, bc. split; [reflexivity|].
  cbn [map] in V. injection V as -> -> -> -> -> ->.
  apply checksum_sum_zero.
Qed.

(** The whole of [send_simple_command] on a connected transport. *)
Lemma send_simple_connected env h s (command_char : string) :
  In command_char ["Q"; "I"; "F"]%string ->
  not_connected s = false ->
  exists cmd_byte frame,
    dict_get simple_commands_map command_char = Some cmd_byte /\
    build_full_command cmd_byte 0xFF 0xFF 0xFF 0xFF = Ok frame /\
    let sending := Log DEBUG (SimpleSending command_char (hex frame)) in
    send_simple_command command_char env h s
    = match serial_write_raises env (h ++ [sending]) frame with
      | Some e =>
          (Ok None, s,
           [sending; SerialWrite frame;
            Log ERROR (SimpleError command_char e)])
      | None =>
          match serial_read_result env
                  (h ++ [sending; SerialWrite frame; Sleep (2 # 10)]) 64
          with
          | Ok response =>
              if nonempty response
              then (Ok (Some response), s,
                    [sending; SerialWrite frame; Sleep (2 # 10);
                     SerialRead 64;
                     Log DEBUG (SimpleResponse (len response) (hex response))])
              else (Ok None, s,
                    [sending; SerialWrite frame; Sleep (2 # 10);
                     SerialRead 64; Log WARNING SimpleNoResponse])
          | Raise e =>
              (Ok None, s,
               [sending; SerialWrite frame; Sleep (2 # 10); SerialRead 64;
                Log ERROR (SimpleError command_char e)])
          end
      end.
Proof.
  intros Hin Hc.
  destruct (simple_commands_inside _ Hin) as (cmd_byte & E & Hb).
  assert (Hff : is_byte 0xFF) by (unfold is_byte; lia).
  destruct (build_full_command_bytes cmd_byte _ _ _ _ Hb Hff Hff Hff Hff)
    as (b0 & b1 & b2 & b3 & b4 & bc & Ef & _).
  exists cmd_byte, [b0; b1; b2; b3; b4; bc; x0d].
  split; [exact E|]. split; [exact Ef|]. cbv zeta.
  unfold send_simple_command. rewrite E. run_method.
  rewrite Ef, Hc. cbn -[hex]. tidy_history.
  destruct (serial_write_raises env _ _); [reflexivity|].
  cbn -[hex]. tidy_history.
  destruct (serial_read_result env _ 64) as [response|e]; [|reflexivity].
  destruct (nonempty response); reflexivity.
Qed.

(** The whole of [send_predefined_command] on a connected transport. *)
Lemma send_predefined_connected env h s (key : string) :
  dict_mem SMS_GAMER_COMMANDS_PARAMS key = true ->
  not_connected s = false ->
  exists frame,
    frame_of_key key frame /\
    let sending := Log INFO (PredefinedSending key (hex frame)) in
    send_predefined_command key env h s
    = match serial_write_raises env (h ++ [sending]) frame with
      | Some e =>
          (Ok None, s,
           [sending; SerialWrite frame; Log ERROR (PredefinedError key e)])
      | None =>
          match serial_read_result env
                  (h ++ [sending; SerialWrite frame; Sleep 1]) 64
          with
          | Ok response =>
              if nonempty response
              then (Ok (Some response), s,
                    [sending; SerialWrite frame; Sleep 1; SerialRead 64;
                     Log INFO (PredefinedResponse (len response)
                                                  (hex response))])
              else (Ok None, s,
                    [sending; SerialWrite frame; Sleep 1; SerialRead 64;
                     Log WARNING (PredefinedNoResponse key)])
          | Raise e =>
              (Ok None, s,
               [sending; SerialWrite frame; Sleep 1; SerialRead 64;
                Log ERROR (PredefinedError key e)])
          end
      end.
Proof.
  unfold dict_mem. intros Hin Hc.
  destruct (dict_get SMS_GAMER_COMMANDS_PARAMS key)
    as [[[[[cmd_byte p1] p2] p3] p4]|] eqn:E; [|discriminate].
  destruct (registry_frame _ _ _ _ _ _ E) as (frame & Ef & _).
  exists frame. split; [now exists cmd_byte, p1, p2, p3, p4|]. cbv zeta.
  unfold send_predefined_command. rewrite E. run_method.
  rewrite Ef, Hc. cbn -[hex]. tidy_history.
  destruct (serial_write_raises env _ _); [reflexivity|].
  cbn -[hex]. tidy_history.
  destruct (serial_read_result env _ 64) as [response|e]; [|reflexivity].
  destruct (nonempty response); reflexivity.
Qed.

Lemma frame_of_key_valid (key : string) (frame : bytes) :
  frame_of_key key frame -> valid_frame frame.
Proof.
  intros (cmd_byte & p1 & p2 & p3 & p4 & _ & E).
  exact (built_frame_valid _ _ _ _ _ _ E).
Qed.

Lemma nonempty_not_nil (bs : bytes) : nonempty bs = true -> bs <> [].
Proof. destruct bs; [discriminate|congruence]. Qed.

Lemma simple_key_in_registry (command_char : string) (cmd_byte : Z) :
  dict_get simple_commands_map command_char = Some cmd_byte ->
  dict_get SMS_GAMER_COMMANDS_PARAMS command_char
  = Some (cmd_byte, 0xFF, 0xFF, 0xFF, 0xFF).
Proof.
  cbn. intros E.
  repeat match type of E with
         | context [String.eqb ?a ?b] =>
             destruct (String.eqb_spec a b) as [->|_];
             [injection E as <-; reflexivity|]
         end.
  discriminate.
Qed.

Ltac sleep_only :=
  let q := fresh "q" in
  let H := fresh "H" in
  intros q H; cbn in H;
  repeat (destruct H as [H|H]; [try discriminate H; now injection H|]);
  contradiction.

(** X7. For Q, I and F, in every environment and session,
    [send_simple_command] never raises, leaves the session unchanged and
    makes no MQTT call. Without a transport it does nothing at all; with one
    it writes exactly one packet, the well-formed frame the registry holds
    for the same key, sleeps only for 0.2 seconds, and returns a response
    only when the serial line delivered that response, non-empty. *)
Theorem send_simple_command_behaviour env h s (command_char : string) :
  In command_char ["Q"; "I"; "F"]%string ->
  exists r evs,
    send_simple_command command_char env h s = (Ok r, s, evs) /\
    filter is_mqtt_call evs = [] /\
    (if not_connected s
     then evs = [] /\ r = None
     else exists frame,
         valid_frame frame /\ frame_of_key command_char frame /\
         writes evs = [frame] /\
         (forall q, In (Sleep q) evs -> q = 2 # 10)) /\
    (forall response,
       r = Some response ->
       response <> [] /\
       exists hr, serial_read_result env hr 64 = Ok response).
Proof.
  intros Hin. destruct (not_connected s) eqn:Hc.
  - rewrite (send_simple_not_connected env h s _ Hin Hc).
    exists None, []. repeat split; discriminate.
  - destruct (send_simple_connected env h s _ Hin Hc)
      as (cmd_byte & frame & E & Ef & Erun).
    cbv zeta in Erun. rewrite Erun.
    assert (Hframe : valid_frame frame /\ frame_of_key command_char frame).
    { split; [exact (built_frame_valid _ _ _ _ _ _ Ef)|].
      exists cmd_byte, 0xFF, 0xFF, 0xFF, 0xFF.
      split; [now apply simple_key_in_registry|exact Ef]. }
    destruct Hframe as [Hv Hk].
    destruct (serial_write_raises env _ frame).
    { eexists. eexists. split; [reflexivity|]. split; [reflexivity|].
      split; [exists frame; repeat split; auto; sleep_only|discriminate]. }
    destruct (serial_read_result env _ 64) as [response|e] eqn:Er.
    + destruct (nonempty response) eqn:Hne;
        (eexists; eexists; split; [reflexivity|]; split; [reflexivity|];
         split; [exists frame; repeat split; auto; sleep_only|]).
      * intros r' [= <-]. split; [now apply nonempty_not_nil|eauto].
      * discriminate.
    + eexists. eexists. split; [reflexivity|]. split; [reflexivity|].
      split; [exists frame; repeat split; auto; sleep_only|discriminate].
Qed.

(** The status query, answered with two bytes. *)
Lemma send_simple_command_behaviour_witness :
  exists r evs,
    send_simple_command "Q" (sample_env [x01; x02]) [] bridging_session
    = (Ok r, bridging_session, evs) /\
    filter is_mqtt_call evs = [] /\
    (if not_connected bridging_session
     then evs = [] /\ r = None
     else exists frame,
         valid_frame frame /\ frame_of_key "Q" frame /\
         writes evs = [frame] /\
         (forall q, In (Sleep q) evs -> q = 2 # 10)) /\
    (forall response,
       r = Some response ->
       response <> [] /\
       exists hr,
         serial_read_result (sample_env [x01; x02]) hr 64 = Ok response).
Proof.
  apply (send_simple_command_behaviour (sample_env [x01; x02]) []
           bridging_session "Q").
  cbn. tauto.
Defined.

(** X8. For every key, registered or not, in every environment and
    session, [send_predefined_command] never raises, leaves the session
    unchanged and makes no MQTT call; it writes at most one packet, and
    only for a registered key on a connected transport, the packet being
    the well-formed frame of that key; it sleeps only for one second; and it
    returns a response only when the serial line delivered that response,
    non-empty. *)
Theorem send_predefined_command_behaviour env h s (key : string) :
  exists r evs,
    send_predefined_command key env h s = (Ok r, s, evs) /\
    filter is_mqtt_call evs = [] /\
    (writes evs = [] \/
     exists frame,
       writes evs = [frame] /\ valid_frame frame /\ frame_of_key key frame /\
       not_connected s = false) /\
    (forall q, In (Sleep q) evs -> q = 1%Q) /\
    (forall response,
       r = Some response ->
       response <> [] /\
       exists hr, serial_read_result env hr 64 = Ok response).
Proof.
  destruct (dict_mem SMS_GAMER_COMMANDS_PARAMS key) eqn:Hreg.
  - destruct (not_connected s) eqn:Hc.
    + rewrite (send_predefined_not_connected env h s key Hreg Hc).
      eexists. eexists. split; [reflexivity|]. split; [reflexivity|].
      split; [now left|]. split; [sleep_only|discriminate].
    + destruct (send_predefined_connected env h s key Hreg Hc)
        as (frame & Hk & Erun).
      cbv zeta in Erun. rewrite Erun.
      pose proof (frame_of_key_valid _ _ Hk) as Hv.
      destruct (serial_write_raises env _ frame).
      { eexists. eexists. split; [reflexivity|]. split; [reflexivity|].
        split; [right; exists frame; repeat split; auto|].
        split; [sleep_only|discriminate]. }
      destruct (serial_read_result env _ 64) as [response|e] eqn:Er.
      * destruct (nonempty response) eqn:Hne;
          (eexists; eexists; split; [reflexivity|]; split; [reflexivity|];
           split; [right; exists frame; repeat split; auto|];
           split; [sleep_only|]).
        -- intros r' [= <-]. split; [now apply nonempty_not_nil|eauto].
        -- discriminate.
      * eexists. eexists. split; [reflexivity|]. split; [reflexivity|].
        split; [right; exists frame; repeat split; auto|].
        split; [sleep_only|discriminate].
  - unfold dict_mem in Hreg.
    destruct (dict_get SMS_GAMER_COMMANDS_PARAMS key) eqn:E; [discriminate|].
    unfold send_predefined_command. rewrite E.
    eexists. eexists. split; [reflexivity|]. split; [reflexivity|].
    split; [now left|]. split; [sleep_only|discriminate].
Qed.

(** [json.loads] failing with something other than [JSONDecodeError]. *)
Lemma on_message_loads_error env h s (msg : MQTTMessage) (text : string)
      (e : Exn) :
  bytes_decode env (payload msg) = Ok text ->
  json_loads env text = Raise e ->
  is_JSONDecodeError e = false ->
  _on_mqtt_message msg env h s
  = (Ok tt, s, [Log INFO (MqttMessageReceived (topic msg) text);
                Log ERROR (MqttProcessingError e)]).
Proof.
  intros Hdec Hloads He. unfold _on_mqtt_message. run_method.
  rewrite Hdec. cbn [rbind]. rewrite Hloads. cbn. now rewrite He.
Qed.

(** Every run of [_on_mqtt_message] either leaves log records only or is the
    dispatch of a registered command. *)
Lemma on_message_cases env h s (msg : MQTTMessage) :
  (exists e, _on_mqtt_message msg env h s = (Raise e, s, []) /\
             bytes_decode env (payload msg) = Raise e) \/
  (exists text level record,
     _on_mqtt_message msg env h s
     = (Ok tt, s, [Log INFO (MqttMessageReceived (topic msg) text);
                   Log level record])) \/
  (exists text d key,
     bytes_decode env (payload msg) = Ok text /\
     json_loads env text = Ok (JObj d) /\
     dict_get d "command" = Some (JStr key) /\
     dict_mem SMS_GAMER_COMMANDS_PARAMS key = true).
Proof.
  destruct (bytes_decode env (payload msg)) as [text|e] eqn:Hdec.
  2:{ left. exists e. split; [now apply on_message_undecodable|reflexivity]. }
  right.
  destruct (json_loads env text) as [v|e] eqn:Hloads.
  2:{ left. exists text.
      destruct (is_JSONDecodeError e) eqn:He.
      - destruct e; try discriminate He.
        eexists. eexists. now apply on_message_not_json.
      - eexists. eexists.
        exact (on_message_loads_error env h s msg text e Hdec Hloads He). }
  assert (Hnone : (forall d, v = JObj d -> dict_get d "command" = None) ->
                  exists level record,
                    _on_mqtt_message msg env h s
                    = (Ok tt, s,
                       [Log INFO (MqttMessageReceived (topic msg) text);
                        Log level record])).
  { intros Hkey.
    rewrite (on_message_no_command env h s msg text v Hdec Hloads Hkey).
    destruct v; eexists; eexists; reflexivity. }
  destruct v as [| b | n | q | str | l | d];
    try solve [left; exists text; apply Hnone; intros d' [=]].
  destruct (dict_get d "command") as [k|] eqn:Hget.
  2:{ left. exists text. apply Hnone. intros d' [= <-]. exact Hget. }
  assert (Hunreg : (forall key, k = JStr key ->
                      dict_mem SMS_GAMER_COMMANDS_PARAMS key = false) ->
                   exists level record,
                     _on_mqtt_message msg env h s
                     = (Ok tt, s,
                        [Log INFO (MqttMessageReceived (topic msg) text);
                         Log level record])).
  { intros Hout.
    destruct (on_message_unregistered env h s msg text d k
                Hdec Hloads Hget Hout) as (level & record & E & _).
    now exists level, record. }
  destruct k as [| b | n | q | key | l | d'];
    try solve [left; exists text; apply Hunreg; intros key' [=]].
  destruct (dict_mem SMS_GAMER_COMMANDS_PARAMS key) eqn:Hreg.
  - right. now exists text, d, key.
  - left. exists text. apply Hunreg. now intros key' [= <-].
Qed.

(** X9. Whatever message arrives, in every environment and session,
    [_on_mqtt_message] leaves the session unchanged and makes no MQTT call;
    it raises only when the payload cannot be decoded, and then does
    nothing else; it writes at most one packet to the serial line, and only
    on a connected transport, the packet being the well-formed frame of a
    registered command; and it sleeps only for one second. *)
Theorem on_message_behaviour env h s (msg : MQTTMessage) :
  exists r evs,
    _on_mqtt_message msg env h s = (r, s, evs) /\
    filter is_mqtt_call evs = [] /\
    (r = Ok tt \/
     exists e, r = Raise e /\ bytes_decode env (payload msg) = Raise e /\
               evs = []) /\
    (writes evs = [] \/
     exists key frame,
       writes evs = [frame] /\ valid_frame frame /\ frame_of_key key frame /\
       not_connected s = false) /\
    (forall q, In (Sleep q) evs -> q = 1%Q).
Proof.
  destruct (on_message_cases env h s msg)
    as [(e & -> & Hdec) | [(text & level & record & ->)
                          | (text & d & key & Hdec & Hloads & Hget & Hreg)]].
  - eexists. eexists. split; [reflexivity|]. split; [reflexivity|].
    split; [right; now exists e|]. split; [now left|sleep_only].
  - eexists. eexists. split; [reflexivity|]. split; [reflexivity|].
    split; [now left|]. split; [now left|sleep_only].
  - destruct (on_message_registered env h s msg text d key
                Hdec Hloads Hget Hreg)
      as (cmd_byte & p1 & p2 & p3 & p4 & frame & Eparams & Ef & Erun).
    cbv zeta in Erun. rewrite Erun.
    assert (Hk : frame_of_key key frame)
      by (now exists cmd_byte, p1, p2, p3, p4).
    pose proof (frame_of_key_valid _ _ Hk) as Hv.
    destruct (not_connected s) eqn:Hc.
    { eexists. eexists. split; [reflexivity|]. split; [reflexivity|].
      split; [now left|]. split; [now left|sleep_only]. }
    destruct (serial_write_raises env _ frame).
    { eexists. eexists. split; [reflexivity|]. split; [reflexivity|].
      split; [now left|].
      split; [right; exists key, frame; repeat split; auto|sleep_only]. }
    destruct (serial_read_result env _ 64) as [response|e];
      [destruct (nonempty response)|];
      (eexists; eexists; split; [reflexivity|]; split; [reflexivity|];
       split; [now left|];
       split; [right; exists key, frame; repeat split; auto|sleep_only]).
Qed.

(** *** Discovery *)

(** The documents published do not depend on the environment, the history,
    the client or the rest of the session. *)
Lemma discovery_documents_any env h s (client : ClientId) :
  mqtt_client s = Some client ->
  exists evs,
    publish_discovery_messages env h s = (Ok tt, s, evs) /\
    published_documents evs = discovery_documents.
Proof.
  intros Hclient. destruct s as [c se m]. cbn in Hclient. subst m.
  eexists. split; vm_compute; reflexivity.
Qed.

(** X10. The first variant's discovery routine, given the identifiers the
    second variant has as module constants, does exactly what the second
    variant's routine does: the same result, session, publications and log
    records, in every environment and session. *)
Theorem discovery_variants_agree env h s :
  addon_publish_discovery_messages module_config env h s
  = publish_discovery_messages env h s.
Proof.
  destruct s as [c se [client|]]; vm_compute; reflexivity.
Qed.







Lemma advertised_commands_registered (text : string) :
  In text advertised_commands ->
  exists key,
    In key ["M"; "T"; "D"; "C"; "R"]%string /\
    text = command_json_text key /\
    dict_mem SMS_GAMER_COMMANDS_PARAMS key = true /\
    loads_command_object text = Ok (JObj [("command"%string, JStr key)]).
Proof.
  intros Hin. vm_compute in Hin.
  repeat (destruct Hin as [<-|Hin];
          [solve [ exists "M"%string; repeat split; cbn; tauto
                 | exists "T"%string; repeat split; cbn; tauto
                 | exists "D"%string; repeat split; cbn; tauto
                 | exists "C"%string; repeat split; cbn; tauto
                 | exists "R"%string; repeat split; cbn; tauto ]|]).
  contradiction.
Qed.

(** X12. Every command payload the discovery documents tell Home Assistant
    to send (the switch's on and off payloads and the four buttons' press
    payloads) is the JSON text of a registered command; and when such a
    payload comes back on the command topic, is decoded and parsed for what
    it is, and the transport is connected, the handler writes the frame of
    that command to the serial line and nothing else. *)
Theorem advertised_commands_are_dispatched
        env h s (msg : MQTTMessage) (text : string) :
  In text advertised_commands ->
  exists key,
    text = command_json_text key /\
    dict_mem SMS_GAMER_COMMANDS_PARAMS key = true /\
    (bytes_decode env (payload msg) = Ok text ->
     json_loads env text = Ok (JObj [("command"%string, JStr key)]) ->
     not_connected s = false ->
     exists frame evs,
       _on_mqtt_message msg env h s = (Ok tt, s, evs) /\
       frame_of_key key frame /\ writes evs = [frame]).
Proof.
  intros Hin.
  destruct (advertised_commands_registered text Hin)
    as (key & _ & Htext & Hreg & _).
  exists key. split; [exact Htext|]. split; [exact Hreg|].
  intros Hdec Hloads Hc.
  destruct (on_message_registered env h s msg text
              [("command"%string, JStr key)] key Hdec Hloads eq_refl Hreg)
    as (cmd_byte & p1 & p2 & p3 & p4 & frame & Eparams & Ef & Erun).
  cbv zeta in Erun. rewrite Erun, Hc.
  exists frame. eexists. split; [reflexivity|].
  split; [now exists cmd_byte, p1, p2, p3, p4|].
  destruct (serial_write_raises env _ frame); [reflexivity|].
  destruct (serial_read_result env _ 64) as [response|e];
    [destruct (nonempty response)|]; reflexivity.
Qed.

(** The press payload of the battery test button. *)
Lemma advertised_commands_are_dispatched_witness :
  exists key,
    command_json_text "T" = command_json_text key /\
    dict_mem SMS_GAMER_COMMANDS_PARAMS key = true /\
    (bytes_decode (sample_env [x01])
                  (payload (command_message (command_json_text "T")))
     = Ok (command_json_text "T") ->
     json_loads (sample_env [x01]) (command_json_text "T")
     = Ok (JObj [("command"%string, JStr key)]) ->
     not_connected bridging_session = false ->
     exists frame evs,
       _on_mqtt_message (command_message (command_json_text "T"))
                        (sample_env [x01]) [] bridging_session
       = (Ok tt, bridging_session, evs) /\
       frame_of_key key frame /\ writes evs = [frame]).
Proof.
  apply (advertised_commands_are_dispatched (sample_env [x01]) []
           bridging_session (command_message (command_json_text "T"))
           (command_json_text "T")).
  vm_compute. tauto.
Defined.

(** * Properties of the polling loop and of the connection life cycle *)

Ltac run_runtime :=
  unfold rthen, rret, rraise, rtry, core, remit, rlog, rget, rput,
    interpret_q_logged.


Lemma core_history_map (evs : list Event) :
  core_history (map Core evs) = evs.
Proof.
  unfold core_history.
  induction evs as [|e evs IH]; [reflexivity|]. cbn. now rewrite IH.
Qed.









Ltac enter_done :=
  repeat split; intros; subst; cbn in *;
  try discriminate; try congruence; eauto;
  try (left; reflexivity);
  try (right; split; [reflexivity|]);
  try (exists []; reflexivity);
  try (eexists [_; _; _; _]; reflexivity).

(** X15. The start of [mqtt_monitor_loop]: it never writes to the serial
    line and never changes the serial side of the session. Without a serial
    connection it only logs an error and returns, the broker not being
    contacted. The loop is entered only with a serial connection, an MQTT
    client in the session and an interval; called with no interval, it
    raises [TypeError] after the two-second wait, or returns before, and
    never enters the loop. *)
Theorem monitor_enter_behaviour
        env h s (new_client : ClientId) (interval : option Q) :
  exists r s' evs,
    mqtt_monitor_enter new_client interval env h s = (r, s', evs) /\
    writes (core_history evs) = [] /\
    connected s' = connected s /\ serial s' = serial s /\
    (connected s = false ->
     r = Ok false /\ s' = s /\ evs = [RuntimeLogged ERROR MonitorNoSerial]) /\
    (r = Ok true ->
     connected s' = true /\
     (exists client, mqtt_client s' = Some client) /\
     (exists i, interval = Some i)) /\
    (interval = None ->
     r = Ok false \/
     (r = Raise TypeError /\ exists before, evs = before ++ [Core (Sleep 2)])).
Proof.
  unfold mqtt_monitor_enter. run_runtime.
  destruct (connected s) eqn:Hconn; cbn [negb].
  2:{ eexists. eexists. eexists. split; [reflexivity|]. enter_done. }
  destruct (mqtt_client s) as [client|] eqn:Hclient.
  - cbn [negb app]. destruct interval as [i|];
      (eexists; eexists; eexists; split; [reflexivity|]; enter_done).
  - unfold connect_mqtt, set_mqtt_client. run_method.
    destruct (mqtt_connect_raises (core_env env) _) as [e|]; cbn;
      [|destruct interval as [i|]];
      (eexists; eexists; eexists; split; [reflexivity|]; enter_done).
Qed.

(** X16. [disconnect] in a session whose flag and port agree: it returns
    normally, the session is then not connected, its port is closed and its
    MQTT client kept; a second [disconnect] closes no port again; and after
    it a simple command and a registered predefined command return [None]
    without any call on the serial line. *)
Theorem disconnect_behaviour env h s :
  session_consistent s ->
  exists s1 evs,
    disconnect env h s = (Ok tt, s1, evs) /\
    connected s1 = false /\ not_connected s1 = true /\
    mqtt_client s1 = mqtt_client s /\
    (forall port, serial s1 = Some port -> is_open port = false) /\
    (exists evs2,
       disconnect env (h ++ evs) s1 = (Ok tt, s1, evs2) /\
       ~ In SerialClose evs2) /\
    (forall cenv ch command_char,
       In command_char ["Q"; "I"; "F"]%string ->
       send_simple_command command_char cenv ch s1 = (Ok None, s1, [])) /\
    (forall cenv ch key,
       dict_mem SMS_GAMER_COMMANDS_PARAMS key = true ->
       send_predefined_command key cenv ch s1
       = (Ok None, s1, [Log ERROR PredefinedNotConnected])).
Proof.
  intros Hcons. unfold session_consistent in Hcons.
  assert (Hsend : forall s1,
             not_connected s1 = true ->
             (forall cenv ch command_char,
                 In command_char ["Q"; "I"; "F"]%string ->
                 send_simple_command command_char cenv ch s1
                 = (Ok None, s1, [])) /\
             (forall cenv ch key,
                 dict_mem SMS_GAMER_COMMANDS_PARAMS key = true ->
                 send_predefined_command key cenv ch s1
                 = (Ok None, s1, [Log ERROR PredefinedNotConnected]))).
  { intros s1 Hnc. split; intros.
    - now apply send_simple_not_connected.
    - now apply send_predefined_not_connected. }
  destruct s as [conn [[[|]]|] [client|]]; cbn in Hcons;
    try (specialize (Hcons eq_refl); discriminate Hcons);
    try (destruct conn; [specialize (Hcons eq_refl); discriminate Hcons|]);
    (eexists; eexists; split; [vm_compute; reflexivity|];
     split; [reflexivity|]; split; [reflexivity|]; split; [reflexivity|];
     split; [intros port [= <-]; reflexivity || idtac|];
     [split; [eexists; split; [vm_compute; reflexivity|];
              cbn; intuition discriminate|];
      now apply Hsend]).
Qed.

(** A bridging session is closed down. *)
Lemma disconnect_behaviour_witness :
  session_consistent bridging_session /\
  exists s1 evs,
    disconnect (sample_runtime_env []) [] bridging_session = (Ok tt, s1, evs) /\
    connected s1 = false /\ not_connected s1 = true /\
    mqtt_client s1 = mqtt_client bridging_session /\
    (forall port, serial s1 = Some port -> is_open port = false) /\
    (exists evs2,
       disconnect (sample_runtime_env []) ([] ++ evs) s1 = (Ok tt, s1, evs2) /\
       ~ In SerialClose evs2) /\
    (forall cenv ch command_char,
       In command_char ["Q"; "I"; "F"]%string ->
       send_simple_command command_char cenv ch s1 = (Ok None, s1, [])) /\
    (forall cenv ch key,
       dict_mem SMS_GAMER_COMMANDS_PARAMS key = true ->
       send_predefined_command key cenv ch s1
       = (Ok None, s1, [Log ERROR PredefinedNotConnected])).
Proof.
  assert (H : session_consistent bridging_session) by (intros _; reflexivity).
  split; [exact H|].
  exact (disconnect_behaviour (sample_runtime_env []) [] bridging_session H).
Defined.

(** X17. The connected flag and the port: they agree after [__init__];
    [connect] never raises and returns [True] exactly when [serial.Serial]
    did not raise, in which case the flag is set and commands are no longer
    refused, while a failed [connect] leaves the session as it was;
    [connect] with a port name keeps flag and port in agreement, whereas
    [connect] with no port name sets the flag on a port that is not open;
    [disconnect] and [connect_mqtt] keep them in agreement. *)
Theorem session_consistency_preserved :
  session_consistent initial_session /\
  (forall env h s port baud_rate timeout,
     session_consistent s ->
     exists r s' evs,
       connect port baud_rate timeout env h s = (Ok r, s', evs) /\
       (r = true <-> serial_open_raises env h = None) /\
       (r = true -> connected s' = true /\ not_connected s' = false) /\
       (r = false -> s' = s) /\
       mqtt_client s' = mqtt_client s /\
       (port <> None -> session_consistent s') /\
       (port = None -> r = true ->
        serial s' = Some {| is_open := false |} /\ ~ session_consistent s')) /\
  (forall env h s,
     session_consistent s ->
     exists s' evs,
       disconnect env h s = (Ok tt, s', evs) /\ session_consistent s') /\
  (forall env h s new_client,
     session_consistent s ->
     exists r s' evs,
       connect_mqtt new_client env h s = (Ok r, s', evs) /\
       session_consistent s' /\
       mqtt_client s' = Some new_client).
Proof.
  split; [intros H; discriminate H|]. split; [|split].
  - intros env h s port baud_rate timeout Hcons.
    unfold connect. run_runtime.
    destruct (serial_open_raises env h) as [e|]; cbn.
    + exists false, s. eexists. split; [reflexivity|].
      repeat split; auto; try discriminate.
    + exists true. eexists. eexists. split; [reflexivity|].
      unfold session_consistent, not_connected. cbn.
      destruct port as [name|];
        repeat split; auto; try discriminate; try congruence.
      intros Hagree. specialize (Hagree eq_refl). discriminate Hagree.
  - intros env h s Hcons. unfold session_consistent in *.
    destruct s as [conn [[[|]]|] [client|]]; cbn in Hcons;
      (eexists; eexists; split; [vm_compute; reflexivity|]);
      cbn; intros Hc; try discriminate Hc; subst; auto.
  - intros env h s new_client Hcons.
    destruct (connect_mqtt_stores_client env h s new_client)
      as (ok & evs & E).
    exists ok. eexists. exists evs. split; [exact E|].
    split; [exact Hcons|reflexivity].
Qed.



(** *** The entities and the status document *)

Lemma flag_active_iff (extra bit : Z) (name : string) :
  In (bit, name) flags_bits ->
  (In name (flags_on extra) <-> Z.testbit extra bit = true).
Proof.
  rewrite flags_on_set_bits. unfold flags_bits, names_of_set_bits.
  intros H. cbn [In] in H.
  repeat (destruct H as [[= <- <-]|H]); try contradiction;
    destruct (Z.testbit extra 7), (Z.testbit extra 6), (Z.testbit extra 5),
      (Z.testbit extra 4), (Z.testbit extra 3), (Z.testbit extra 2),
      (Z.testbit extra 1), (Z.testbit extra 0);
    cbn [List.concat app In]; split; intros H';
    try reflexivity; try discriminate H'; auto 10;
    intuition discriminate.
Qed.

Lemma decoded_flag_active (now : string) (response : bytes) (d : QData)
      (bit : Z) (name : string) :
  _interpret_q_response now response = Decoded d ->
  In (bit, name) flags_bits ->
  (In name (active_flags d) <-> Z.testbit (extra_flags_raw d) bit = true).
Proof.
  intros Hd Hin. destruct (interpret_q_flags now response d Hd)
    as (b & _ & -> & -> & _).
  now apply flag_active_iff.
Qed.

Ltac documents_listed component :=
  let l := eval vm_compute in (documents_of component) in
  replace (documents_of component) with l by (vm_compute; reflexivity).

(** X19. What Home Assistant is told to read is what the polling loop
    publishes. Every discovery document that names a state topic names the
    status topic. Each sensor reads, by its value template, a field that
    every status document carries. Each binary sensor tests, by its value
    template, the presence of one flag name in the [active_flags] field, one
    binary sensor per bit of the flags byte in the order of the flag table;
    the status document of a decoded response carries its active flags in
    that field, and the name is among them exactly when that bit of the
    flags byte is set. The "UPS OK" sensor alone reports ON when its flag is
    absent. The switch reads the flag of bit 0. *)
Theorem entities_read_published_status :
  (forall topic doc t,
     In (topic, doc) discovery_documents ->
     doc_string doc "state_topic" = Some t -> t = status_topic) /\
  Forall2 (fun '(key, _) '(_, doc) =>
             doc_string doc "value_template"
             = Some ("{{ value_json." ++ key ++ " }}")%string /\
             forall d, dict_mem (status_document d) key = true)
          sensors_to_discover (documents_of "sensor") /\
  Forall2 (fun '(bit, name) '(_, doc) =>
             doc_string doc "value_template" = Some (binary_template name) /\
             forall now response d,
               _interpret_q_response now response = Decoded d ->
               dict_get (status_document d) "active_flags"
               = Some (JArr (map JStr (active_flags d))) /\
               (In name (active_flags d)
                <-> Z.testbit (extra_flags_raw d) bit = true))
          flags_bits (documents_of "binary_sensor") /\
  Forall (fun '(_, doc) =>
            doc_string doc "value_template"
            = Some (binary_template "BeepLigado"))
         (documents_of "switch") /\
  List.length (documents_of "switch") = 1%nat.
Proof.
  split; [|split; [|split; [|split]]].
  - intros topic doc t Hin Ht.
    assert (Hall : forallb
              (fun '(_, doc) =>
                 match doc_string doc "state_topic" with
                 | Some t => String.eqb t status_topic
                 | None => true
                 end) discovery_documents = true)
      by (vm_compute; reflexivity).
    rewrite forallb_forall in Hall. specialize (Hall _ Hin).
    cbn beta iota in Hall. rewrite Ht in Hall. now apply String.eqb_eq.
  - documents_listed "sensor"%string. unfold sensors_to_discover.
    repeat constructor; vm_compute; reflexivity.
  - documents_listed "binary_sensor"%string. unfold flags_bits.
    repeat (apply Forall2_cons || apply Forall2_nil);
      (split; [vm_compute; reflexivity|]);
      intros now response d Hd; (split; [reflexivity|]);
      apply (decoded_flag_active now response d _ _ Hd);
      unfold flags_bits; cbn [In]; auto 10.
  - documents_listed "switch"%string.
    repeat constructor; vm_compute; reflexivity.
  - vm_compute; reflexivity.
Qed.

(** *** A negative polling interval *)


